(** * fidcsv: the per-EIN aggregation engine and its batch driver

    A shallow embedding of [src/fidcsv/main.py]: [compute_ein_aggregates],
    [extract_field_value], [process_batch] and the batching loop of [main].

    The program is written against pandas.  The pandas operations it calls
    are embedded as small executable functions over an explicit data frame
    (typed columns, rows of cells); Python exceptions are an error result.
    Floats are represented by exact rationals, so rounding is not part of the
    model; the two coercions whose grammar belongs to the libraries
    ([float] on a string, [pd.to_datetime] on a column) are parameters of
    the engine and are instantiated by decimal and ISO-date readers for the
    worked examples. *)

From Stdlib Require Import String Ascii List ZArith QArith Bool Lia.
From Stdlib Require Import DecimalNat DecimalString SetoidList.
Import ListNotations.

Close Scope Q_scope.
Local Open Scope string_scope.
Local Open Scope list_scope.

(** ** Exceptions and results *)

(** The exceptions pandas raises in this program, and a class for every
    other exception, by name, such as those raised by [charapi]. *)
Inductive exn : Type :=
| KeyError
| AttributeError
| TypeError
| OtherError (name : string).

Inductive res (A : Type) : Type :=
| Ok (a : A)
| Raise (e : exn).

Arguments Ok {A} a.
Arguments Raise {A} e.

Definition bind {A B : Type} (m : res A) (k : A -> res B) : res B :=
  match m with
  | Ok a => k a
  | Raise e => Raise e
  end.

Notation "x <- m ;; k" := (bind m (fun x => k))
  (at level 61, m at next level, right associativity).

Definition raises {A : Type} (m : res A) : Prop :=
  exists e, m = Raise e.

(** ** Cells, series and data frames *)

(** A cell of a frame: a Python [str], a float, or the missing value. *)
Inductive cell : Type :=
| Str (s : string)
| Num (q : Q)
| NaN.

(** The two kinds of column the program meets: [object] (text columns of
    [read_csv]) and numeric (here [float64], which also stands for [int64];
    entirely blank columns are [float64]). *)
Inductive dtype : Type :=
| DObject
| DFloat.

Record Series : Type := mkSeries {
  s_dtype : dtype;
  s_values : list cell
}.

Record DataFrame : Type := mkDataFrame {
  columns : list (string * dtype);
  rows : list (list cell)
}.

(** Python dictionaries keep insertion order; assignment to an existing key
    keeps its position. *)
Definition dict (V : Type) : Type := list (string * V).

Fixpoint dict_get {V : Type} (d : dict V) (k : string) : option V :=
  match d with
  | [] => None
  | (k', v) :: d' => if k' =? k then Some v else dict_get d' k
  end.

Fixpoint dict_set {V : Type} (d : dict V) (k : string) (v : V) : dict V :=
  match d with
  | [] => [(k, v)]
  | (k', v') :: d' =>
      if k' =? k then (k', v) :: d' else (k', v') :: dict_set d' k v
  end.

(** [d.update(other)] *)
Definition dict_update {V : Type} (d other : dict V) : dict V :=
  fold_left (fun acc kv => dict_set acc (fst kv) (snd kv)) other d.

(** Position and dtype of the column named [c]. *)
Fixpoint column_index (c : string) (cols : list (string * dtype))
  : option (nat * dtype) :=
  match cols with
  | [] => None
  | (c', dt) :: cols' =>
      if c' =? c then Some (O, dt)
      else match column_index c cols' with
           | Some (j, dt') => Some (S j, dt')
           | None => None
           end
  end.

(** [c in df.columns]; the name may be [None] when the configuration has no
    [csv_field], and [None] is never a column label. *)
Definition in_columns (c : option string) (df : DataFrame) : bool :=
  match c with
  | None => false
  | Some c' =>
      match column_index c' (columns df) with
      | Some _ => true
      | None => false
      end
  end.

(** [df[c]] *)
Definition getitem (df : DataFrame) (c : string) : res Series :=
  match column_index c (columns df) with
  | None => Raise KeyError
  | Some (j, dt) =>
      Ok (mkSeries dt (map (fun r => nth j r NaN) (rows df)))
  end.

(** Elementwise [==] against a scalar: text equals text, numbers equal
    numbers, and the missing value equals nothing, itself included. *)
Definition cell_eqb (a b : cell) : bool :=
  match a, b with
  | Str x, Str y => x =? y
  | Num x, Num y => Qeq_bool x y
  | _, _ => false
  end.

Definition eq_scalar (s : Series) (key : cell) : list bool :=
  map (fun v => cell_eqb v key) (s_values s).

(** Boolean-mask indexing [df[mask]]: row [i] is kept when [mask[i]]. *)
Fixpoint mask_rows (rs : list (list cell)) (mask : list bool)
  : list (list cell) :=
  match rs, mask with
  | r :: rs', b :: mask' =>
      if b then r :: mask_rows rs' mask' else mask_rows rs' mask'
  | _, _ => []
  end.

Definition bool_index (df : DataFrame) (mask : list bool) : DataFrame :=
  mkDataFrame (columns df) (mask_rows (rows df) mask).

(** [df[df[key_column] == key]] (line 26, with [key_column = "Tax ID"]). *)
Definition select (df : DataFrame) (key_column : string) (key : cell)
  : res DataFrame :=
  col <- getitem df key_column ;;
  Ok (bool_index df (eq_scalar col key)).

(** [df.empty]: some axis has length zero. *)
Definition df_empty (df : DataFrame) : bool :=
  (Nat.eqb (length (rows df)) 0) || (Nat.eqb (length (columns df)) 0).

(** ** Aggregated values *)

Inductive value : Type :=
| VStr (s : string)
| VFloat (q : Q)
| VInt (n : Z)
| VNaN
| VTimestamp (t : Z)
| VNaT
| VNone.

Definition cell_value (c : cell) : value :=
  match c with
  | Str s => VStr s
  | Num q => VFloat q
  | NaN => VNaN
  end.

(** ** The string accessor and the currency pattern *)

Definition is_str (c : cell) : bool :=
  match c with Str _ => true | _ => false end.

Definition is_nan (c : cell) : bool :=
  match c with NaN => true | _ => false end.

(** [Series.str] exists for object columns holding text (or nothing at
    all), and raises [AttributeError] on every other column. *)
Definition str_accessor_ok (s : Series) : bool :=
  match s_dtype s with
  | DFloat => false
  | DObject => existsb is_str (s_values s) || forallb is_nan (s_values s)
  end.

(** Substitution of the pattern [[\$,]] by the empty string. *)
Fixpoint strip_currency (s : string) : string :=
  match s with
  | EmptyString => EmptyString
  | String c s' =>
      if (Ascii.eqb c "$" || Ascii.eqb c ",")%bool then strip_currency s'
      else String c (strip_currency s')
  end.

(** [column.str.replace(r"[\$,]", "", regex=True)]: cells that are not text
    come out missing. *)
Definition str_replace_currency (s : Series) : res Series :=
  if str_accessor_ok s then
    Ok (mkSeries DObject
          (map (fun c => match c with
                         | Str x => Str (strip_currency x)
                         | _ => NaN
                         end) (s_values s)))
  else Raise AttributeError.

(** ** Reductions *)

Fixpoint nums (l : list cell) : list Q :=
  match l with
  | [] => []
  | Num q :: l' => q :: nums l'
  | _ :: l' => nums l'
  end.

(** [sum] of a float column: missing values are skipped, the empty sum is
    [0.0].  The addition is exact here; it is the float64 sum only where
    that sum is exact (no addend, one addend, or addends and partial sums
    that are representable). *)
Definition float_sum (l : list cell) : Q :=
  fold_left Qplus (nums l) 0%Q.

Definition Qmaxb (a b : Q) : Q := if Qle_bool a b then b else a.

(** [max] of a float column: missing values are skipped, [nan] when
    nothing is left. *)
Definition float_max (l : list cell) : value :=
  match nums l with
  | [] => VNaN
  | q :: qs => VFloat (fold_left Qmaxb qs q)
  end.

(** Python's [+] on the elements of an object column. *)
Definition py_add (a b : cell) : res cell :=
  match a, b with
  | Str x, Str y => Ok (Str (x ++ y))
  | Num x, Num y => Ok (Num (x + y)%Q)
  | _, _ => Raise TypeError
  end.

Fixpoint reduce (f : cell -> cell -> res cell) (acc : cell) (l : list cell)
  : res cell :=
  match l with
  | [] => Ok acc
  | x :: l' => acc' <- f acc x ;; reduce f acc' l'
  end.

(** [sum] of an object column: missing values are first replaced by [0],
    then the elements are added left to right. *)
Definition obj_sum (l : list cell) : res value :=
  match map (fun c => if is_nan c then Num 0%Q else c) l with
  | [] => Ok (VInt 0)
  | x :: l' => r <- reduce py_add x l' ;; Ok (cell_value r)
  end.

(** Elements of an object column under [max]: missing values are replaced
    by minus infinity before the comparison. *)
Inductive pyel : Type :=
| PStr (s : string)
| PNum (q : Q)
| PNegInf.

Definition py_max (a b : pyel) : res pyel :=
  match a, b with
  | PStr x, PStr y => Ok (if String.leb x y then PStr y else PStr x)
  | PNum x, PNum y => Ok (PNum (Qmaxb x y))
  | PNum x, PNegInf => Ok (PNum x)
  | PNegInf, PNum y => Ok (PNum y)
  | PNegInf, PNegInf => Ok PNegInf
  | _, _ => Raise TypeError
  end.

Fixpoint reduce_max (acc : pyel) (l : list pyel) : res pyel :=
  match l with
  | [] => Ok acc
  | x :: l' => acc' <- py_max acc x ;; reduce_max acc' l'
  end.

Definition fill_neg_inf (c : cell) : pyel :=
  match c with
  | Str s => PStr s
  | Num q => PNum q
  | NaN => PNegInf
  end.

(** [max] of an object column; a column with nothing but missing values
    gives [nan]. *)
Definition obj_max (l : list cell) : res value :=
  match map fill_neg_inf l with
  | [] => Ok VNaN
  | x :: l' =>
      r <- reduce_max x l' ;;
      Ok (match r with
          | PStr s => VStr s
          | PNum q => VFloat q
          | PNegInf => VNaN
          end)
  end.

Definition series_sum (s : Series) : res value :=
  match s_dtype s with
  | DFloat => Ok (VFloat (float_sum (s_values s)))
  | DObject => obj_sum (s_values s)
  end.

Definition series_max (s : Series) : res value :=
  match s_dtype s with
  | DFloat => Ok (float_max (s_values s))
  | DObject => obj_max (s_values s)
  end.

(** [max] of a datetime column: [NaT] entries are skipped. *)
Fixpoint somes {A : Type} (l : list (option A)) : list A :=
  match l with
  | [] => []
  | Some a :: l' => a :: somes l'
  | None :: l' => somes l'
  end.

Definition datetime_max (l : list (option Z)) : value :=
  match somes l with
  | [] => VNaT
  | t :: ts => VTimestamp (fold_left Z.max ts t)
  end.

(** ** Field configuration *)

(** One entry of the aggregation configuration.  Every key is optional in
    the source, which reads them with [dict.get]. *)
Record FieldConfig : Type := mkFieldConfig {
  include : option bool;
  csv_field : option string;
  aggregation : option string;
  data_clean : option string
}.

Definition get_default {A : Type} (o : option A) (d : A) : A :=
  match o with
  | Some a => a
  | None => d
  end.

Definition str_is (o : option string) (s : string) : bool :=
  match o with
  | Some x => x =? s
  | None => false
  end.

(** ** The aggregation engine *)

Section Engine.

(** Python's [float] applied to a string; [None] when it raises
    [ValueError]. *)
Variable float_of_string : string -> option Q.

(** [pd.to_datetime(column, errors="coerce")]: one entry per cell, [None]
    standing for [NaT]. *)
Variable to_datetime : list cell -> list (option Z).

Definition to_float_cell (c : cell) : option cell :=
  match c with
  | Str s =>
      match float_of_string s with
      | Some q => Some (Num q)
      | None => None
      end
  | Num q => Some (Num q)
  | NaN => Some NaN
  end.

Fixpoint coerce_all (l : list cell) : option (list cell) :=
  match l with
  | [] => Some []
  | c :: l' =>
      match to_float_cell c, coerce_all l' with
      | Some c', Some r => Some (c' :: r)
      | _, _ => None
      end
  end.

(** [series.astype(float, errors="ignore")]: the conversion applies to
    the column as a whole; when any cell fails, the exception is
    suppressed and the original series is returned unchanged. *)
Definition astype_float_ignore (s : Series) : Series :=
  match s_dtype s with
  | DFloat => s
  | DObject =>
      match coerce_all (s_values s) with
      | Some vs => mkSeries DFloat vs
      | None => s
      end
  end.

(** The body of the loop at lines 31-62 for one configuration entry. *)
Definition aggregate_field (ein_data : DataFrame) (result : dict value)
    (field_name : string) (field_config : FieldConfig)
  : res (dict value) :=
  if negb (get_default (include field_config) false) then Ok result
  else if negb (in_columns (csv_field field_config) ein_data) then Ok result
  else
    column_data <- getitem ein_data (get_default (csv_field field_config) "") ;;
    if str_is (aggregation field_config) "sum" then
      if str_is (data_clean field_config) "currency" then
        stripped <- str_replace_currency column_data ;;
        v <- series_sum (astype_float_ignore stripped) ;;
        Ok (dict_set result field_name v)
      else
        v <- series_sum (astype_float_ignore column_data) ;;
        Ok (dict_set result field_name v)
    else if str_is (aggregation field_config) "count" then
      Ok (dict_set result field_name
            (VInt (Z.of_nat (length (rows ein_data)))))
    else if str_is (aggregation field_config) "max" then
      if str_is (data_clean field_config) "currency" then
        stripped <- str_replace_currency column_data ;;
        v <- series_max (astype_float_ignore stripped) ;;
        Ok (dict_set result field_name v)
      else
        Ok (dict_set result field_name
              (datetime_max (to_datetime (s_values column_data))))
    else if str_is (aggregation field_config) "first" then
      Ok (dict_set result field_name
            (match s_values column_data with
             | c :: _ => cell_value c
             | [] => VNone
             end))
    else Ok result.

Fixpoint aggregate_fields (ein_data : DataFrame)
    (items : list (string * FieldConfig)) (result : dict value)
  : res (dict value) :=
  match items with
  | [] => Ok result
  | (field_name, field_config) :: items' =>
      result' <- aggregate_field ein_data result field_name field_config ;;
      aggregate_fields ein_data items' result'
  end.

Definition compute_ein_aggregates (df : DataFrame) (ein : cell)
    (aggregate_config : list (string * FieldConfig))
  : res (dict value) :=
  ein_data <- select df "Tax ID" ein ;;
  if df_empty ein_data then Ok []
  else aggregate_fields ein_data aggregate_config [].

End Engine.

(** ** Readers used by the worked examples *)

(** Plain decimal literals of Python's [float] grammar: an optional sign,
    digits, and an optional fractional part.  The rest of that grammar
    (exponents, surrounding blanks, underscores, [inf], [nan]) is not
    covered: this reader is for the worked cases only, which stay inside
    the fragment, and no general statement below depends on it. *)
Module Decimal.

Definition digit (c : ascii) : option Z :=
  let n := nat_of_ascii c in
  if (Nat.leb 48 n && Nat.leb n 57)%bool then Some (Z.of_nat (n - 48))
  else None.

(** Value and length of a run of digits read from accumulator [acc]. *)
Fixpoint digits (s : string) (acc : Z) (len : nat) : option (Z * nat) :=
  match s with
  | EmptyString => Some (acc, len)
  | String c s' =>
      match digit c with
      | Some d => digits s' (10 * acc + d)%Z (S len)
      | None => None
      end
  end.

(** The text before the first ["."] and the text after it. *)
Fixpoint split_dot (s : string) : string * option string :=
  match s with
  | EmptyString => (EmptyString, None)
  | String c s' =>
      if Ascii.eqb c "." then (EmptyString, Some s')
      else let (a, b) := split_dot s' in (String c a, b)
  end.

Definition unsigned (s : string) : option Q :=
  let (ip, fp) := split_dot s in
  match digits ip 0%Z 0, digits (get_default fp "") 0%Z 0 with
  | Some (i, li), Some (f, lf) =>
      if Nat.eqb (li + lf) 0 then None
      else Some (Qred (Qmake (i * 10 ^ Z.of_nat lf + f)
                             (Z.to_pos (10 ^ Z.of_nat lf))))
  | _, _ => None
  end.

Definition float_of_string (s : string) : option Q :=
  match s with
  | String "-" s' => option_map Qopp (unsigned s')
  | String "+" s' => unsigned s'
  | _ => unsigned s
  end.

End Decimal.

(** Calendar dates written [YYYY-MM-DD], as nanoseconds since the epoch.
    [pd.to_datetime] settles on one format for the whole column and reads
    many more; this reader is for the worked cases only, whose columns are
    ISO dates and plainly unreadable text, and no general statement below
    depends on it. *)
Module IsoDate.

Definition leap (y : Z) : bool :=
  ((y mod 4 =? 0) && (negb (y mod 100 =? 0) || (y mod 400 =? 0)))%Z%bool.

Definition days_in_month (y m : Z) : Z :=
  if (m =? 2)%Z then (if leap y then 29 else 28)%Z
  else if ((m =? 4) || (m =? 6) || (m =? 9) || (m =? 11))%Z%bool then 30%Z
  else 31%Z.

Definition days_from_civil (y m d : Z) : Z :=
  let y' := (if m <=? 2 then y - 1 else y)%Z in
  let era := (y' / 400)%Z in
  let yoe := (y' - era * 400)%Z in
  let mp := (if m >? 2 then m - 3 else m + 9)%Z in
  let doy := ((153 * mp + 2) / 5 + d - 1)%Z in
  let doe := (yoe * 365 + yoe / 4 - yoe / 100 + doy)%Z in
  (era * 146097 + doe - 719468)%Z.

Definition timestamp_of_string (s : string) : option Z :=
  match s with
  | String y1 (String y2 (String y3 (String y4 (String "-"
      (String m1 (String m2 (String "-"
        (String d1 (String d2 EmptyString))))))))) =>
      match Decimal.digits (String y1 (String y2 (String y3 (String y4 ""))))
              0%Z 0,
            Decimal.digits (String m1 (String m2 "")) 0%Z 0,
            Decimal.digits (String d1 (String d2 "")) 0%Z 0 with
      | Some (y, _), Some (m, _), Some (d, _) =>
          if ((1 <=? m) && (m <=? 12) && (1 <=? d)
              && (d <=? days_in_month y m))%Z%bool
          then Some (days_from_civil y m d * 86400000000000)%Z
          else None
      | _, _, _ => None
      end
  | _ => None
  end.

(** Text cells are read as dates and anything unreadable is [NaT]; the
    reader is only applied to text columns. *)
Definition to_datetime (l : list cell) : list (option Z) :=
  map (fun c => match c with
                | Str s => timestamp_of_string s
                | _ => None
                end) l.

End IsoDate.

(** ** Enrichment records *)

(** A Python object as the program sees it: a payload and its attributes,
    each attribute being an object again. *)
#[warnings="-register-all"]
Inductive pyobj : Type :=
| Py (payload : value) (attrs : list (string * pyobj)).

Definition py_attrs (o : pyobj) : list (string * pyobj) :=
  match o with Py _ attrs => attrs end.

Definition py_None : pyobj := Py VNone [].

Definition hasattr (o : pyobj) (name : string) : bool :=
  match dict_get (py_attrs o) name with
  | Some _ => true
  | None => false
  end.

Definition getattr (o : pyobj) (name : string) : res pyobj :=
  match dict_get (py_attrs o) name with
  | Some v => Ok v
  | None => Raise AttributeError
  end.

(** [hasattr(result, holder) and hasattr(result.holder, field)] *)
Definition nested_has (result : pyobj) (holder field : string) : res bool :=
  if hasattr result holder then
    h <- getattr result holder ;; Ok (hasattr h field)
  else Ok false.

(** [getattr(result.holder, field)] *)
Definition nested_get (result : pyobj) (holder field : string) : res pyobj :=
  h <- getattr result holder ;; getattr h field.

Definition extract_field_value (result : pyobj) (field : string)
  : res pyobj :=
  if hasattr result field then getattr result field
  else
    b1 <- nested_has result "financial_metrics" field ;;
    if b1 then nested_get result "financial_metrics" field
    else
      b2 <- nested_has result "compliance_check" field ;;
      if b2 then nested_get result "compliance_check" field
      else
        b3 <- nested_has result "external_validation" field ;;
        if b3 then nested_get result "external_validation" field
        else
          b4 <- nested_has result "organization_type" field ;;
          if b4 then nested_get result "organization_type" field
          else Ok py_None.

(** ** The batch driver *)

(** A value of an output row: taken from the enrichment record, or computed
    by the engine. *)
Inductive out_value : Type :=
| Enriched (o : pyobj)
| Aggregated (v : value).

(** The frame built by [pd.DataFrame(rows, columns=fields)]: one cell per
    listed column, missing when the row dictionary has no such key. *)
Record OutFrame : Type := mkOutFrame {
  out_columns : list string;
  out_rows : list (list (option out_value))
}.

Definition frame_of_dicts (rs : list (dict out_value)) (cols : list string)
  : OutFrame :=
  mkOutFrame cols (map (fun d => map (dict_get d) cols) rs).

Section Pipeline.

Variable float_of_string : string -> option Q.
Variable to_datetime : list cell -> list (option Z).

(** [charapi.evaluate_charity], with its configuration path fixed. *)
Variable evaluate_charity : cell -> res pyobj.

(** [{field: extract_field_value(result, field) for field in fields}] *)
Fixpoint extract_fields (result : pyobj) (fields : list string)
    (row_data : dict out_value) : res (dict out_value) :=
  match fields with
  | [] => Ok row_data
  | field :: fields' =>
      v <- extract_field_value result field ;;
      extract_fields result fields' (dict_set row_data field (Enriched v))
  end.

(** One iteration of the loop at lines 82-90; the progress line printed
    at line 84 is not part of the result. *)
Definition process_ein (ein : cell) (fields : list string)
    (input_df : DataFrame) (aggregate_config : list (string * FieldConfig))
  : res (dict out_value) :=
  result <- evaluate_charity ein ;;
  row_data <- extract_fields result fields [] ;;
  aggregates <- compute_ein_aggregates float_of_string to_datetime
                  input_df ein aggregate_config ;;
  Ok (dict_update row_data
        (map (fun kv => (fst kv, Aggregated (snd kv))) aggregates)).

Fixpoint process_rows (eins : list cell) (fields : list string)
    (input_df : DataFrame) (aggregate_config : list (string * FieldConfig))
  : res (list (dict out_value)) :=
  match eins with
  | [] => Ok []
  | ein :: eins' =>
      row_data <- process_ein ein fields input_df aggregate_config ;;
      rest <- process_rows eins' fields input_df aggregate_config ;;
      Ok (row_data :: rest)
  end.

Definition process_batch (eins : list cell) (fields : list string)
    (input_df : DataFrame) (aggregate_config : list (string * FieldConfig))
  : res OutFrame :=
  rs <- process_rows eins fields input_df aggregate_config ;;
  Ok (frame_of_dicts rs fields).

End Pipeline.

(** ** Batching in [main] *)

(** [l[start:stop]] for non-negative bounds. *)
Definition slice {A : Type} (l : list A) (start stop : Z) : list A :=
  firstn (Z.to_nat (stop - start)) (skipn (Z.to_nat start) l).

(** [range(n)] *)
Definition range (n : Z) : list Z := map Z.of_nat (seq 0 (Z.to_nat n)).

(** The key sequences handed to [process_batch] at lines 129-147, in the
    order of the calls. *)
Definition batches {A : Type} (unique_eins : list A) (batch : Z)
  : list (list A) :=
  if (batch >? 0)%Z then
    let n := Z.of_nat (length unique_eins) in
    let total_batches := ((n + batch - 1) / batch)%Z in
    map (fun batch_num =>
           let start := (batch_num * batch)%Z in
           let stop := Z.min (start + batch) n in
           slice unique_eins start stop)
        (range total_batches)
  else [unique_eins].

(** ** The driver [main] *)

(** The keys of the configuration file that [main] reads.  Each entry of
    [fields] carries its [include] flag. *)
Record Config : Type := mkConfig {
  limit : Z;
  batch : Z;
  output : string;
  fields : list (string * bool);
  input_aggregates : list (string * FieldConfig)
}.

(** [series.dropna()] *)
Definition dropna (l : list cell) : list cell :=
  filter (fun c => negb (is_nan c)) l.

(** [series.unique()]: the distinct values in order of first appearance. *)
Fixpoint unique_from (seen l : list cell) : list cell :=
  match l with
  | [] => []
  | x :: l' =>
      if existsb (cell_eqb x) seen then unique_from seen l'
      else x :: unique_from (x :: seen) l'
  end.

Definition unique (l : list cell) : list cell := unique_from [] l.

(** [df["Tax ID"].dropna().unique()] (line 112) *)
Definition tax_ids (df : DataFrame) : res (list cell) :=
  col <- getitem df "Tax ID" ;;
  Ok (unique (dropna (s_values col))).

(** Lines 116-117: a positive limit keeps the first [limit] keys. *)
Definition apply_limit (config : Config) (unique_eins : list cell)
  : list cell :=
  if (limit config >? 0)%Z then firstn (Z.to_nat (limit config)) unique_eins
  else unique_eins.

(** Lines 120-124 *)
Definition included_fields (config : Config) : list string :=
  map fst (filter snd (fields config)).

(** [str(n)] for a natural number. *)
Definition str_of_nat (n : nat) : string :=
  NilEmpty.string_of_uint (Nat.to_uint n).

(** Line 141: the file of batch [batch_num], numbered from one. *)
Definition batch_filename (config : Config) (batch_num : Z) : string :=
  output config ++ "_batch_" ++ str_of_nat (Z.to_nat (batch_num + 1))
  ++ ".csv".

Section Main.

Variable float_of_string : string -> option Q.
Variable to_datetime : list cell -> list (option Z).
Variable evaluate_charity : cell -> res pyobj.

(** The loop at lines 133-144.  The files written so far stay written when
    a later batch raises, so the result is the list of files in the order
    they were written together with the exception that ended the run, if
    any. *)
Fixpoint batch_loop (config : Config) (df : DataFrame)
    (unique_eins : list cell) (nums : list Z)
  : list (string * OutFrame) * option exn :=
  match nums with
  | [] => ([], None)
  | batch_num :: nums' =>
      let start := (batch_num * batch config)%Z in
      let stop :=
        Z.min (start + batch config) (Z.of_nat (length unique_eins)) in
      let batch_eins := slice unique_eins start stop in
      match process_batch float_of_string to_datetime evaluate_charity
              batch_eins (included_fields config) df
              (input_aggregates config) with
      | Raise e => ([], Some e)
      | Ok batch_df =>
          let (files, err) := batch_loop config df unique_eins nums' in
          ((batch_filename config batch_num, batch_df) :: files, err)
      end
  end.

(** [main] from the point where the table is loaded (line 107); progress
    output and the reset of the output directory are not part of the
    result. *)
Definition main (config : Config) (df : DataFrame)
  : list (string * OutFrame) * option exn :=
  match tax_ids df with
  | Raise e => ([], Some e)
  | Ok all_eins =>
      let unique_eins := apply_limit config all_eins in
      if (batch config >? 0)%Z then
        let total_batches :=
          ((Z.of_nat (length unique_eins) + batch config - 1)
           / batch config)%Z in
        batch_loop config df unique_eins (range total_batches)
      else
        match process_batch float_of_string to_datetime evaluate_charity
                unique_eins (included_fields config) df
                (input_aggregates config) with
        | Raise e => ([], Some e)
        | Ok output_df =>
            ([((output config ++ ".csv")%string, output_df)], None)
        end
  end.

End Main.

(** ** Worked instance *)

Definition aggregate : DataFrame -> cell -> list (string * FieldConfig)
                       -> res (dict value) :=
  compute_ein_aggregates Decimal.float_of_string IsoDate.to_datetime.

(** A two-column table whose rows all carry the key ["11-1111111"]. *)
Definition amounts (dt : dtype) (vals : list cell) : DataFrame :=
  mkDataFrame [("Tax ID", DObject); ("Amount", dt)]
    (map (fun v => [Str "11-1111111"; v]) vals).

Definition spec_on (agg clean : string) : FieldConfig :=
  mkFieldConfig (Some true) (Some "Amount") (Some agg) (Some clean).

(** ** Specification-side notions *)

(** Equality of cells as the comparison [==] decides it. *)
Definition cell_eq (a b : cell) : Prop :=
  match a, b with
  | Str x, Str y => x = y
  | Num x, Num y => Qeq x y
  | _, _ => False
  end.

Definition recognized_verb (o : option string) : bool :=
  str_is o "sum" || str_is o "count" || str_is o "max" || str_is o "first".

Definition with_clean (f : FieldConfig) (clean : option string)
  : FieldConfig :=
  mkFieldConfig (include f) (csv_field f) (aggregation f) clean.

(** The nested holders are probed in this order, after the result itself. *)
Definition probe_order : list string :=
  ["financial_metrics"; "compliance_check"; "external_validation";
   "organization_type"].

(** The objects that can supply a field: the result, then each nested
    holder the result actually has, in probe order. *)
Definition holders (result : pyobj) : list pyobj :=
  result ::
  flat_map (fun h => match dict_get (py_attrs result) h with
                     | Some o => [o]
                     | None => []
                     end) probe_order.

(** The attribute [field] of the first holder that has it, and [None] when
    no holder has it. *)
Definition first_holder_value (result : pyobj) (field : string) : pyobj :=
  match find (fun h => hasattr h field) (holders result) with
  | Some h => get_default (dict_get (py_attrs h) field) py_None
  | None => py_None
  end.

(** The comprehension assigns every listed field, in order. *)
Definition extracted (result : pyobj) (fields : list string)
    (row_data : dict out_value) : dict out_value :=
  fold_left (fun acc f =>
               dict_set acc f (Enriched (first_holder_value result f)))
            fields row_data.

(** What a column of the output holds for one key: the aggregate of that
    name when the engine produced one, the extracted attribute otherwise. *)
Definition merged_cell (result : pyobj) (aggregates : dict value)
    (field : string) : option out_value :=
  match dict_get aggregates field with
  | Some v => Some (Aggregated v)
  | None => Some (Enriched (first_holder_value result field))
  end.

(** The [i]-th run of [b] consecutive keys. *)
Definition chunk {A : Type} (l : list A) (b i : nat) : list A :=
  firstn b (skipn (i * b) l).

Definition key1 : cell := Str "11-1111111".

Definition count_on (column : option string) : FieldConfig :=
  mkFieldConfig (Some true) column (Some "count") None.

(** An enrichment record with a top-level [ein] and a nested ratio. *)
Definition charity : pyobj :=
  Py VNone
    [("ein", Py (VStr "11-1111111") []);
     ("financial_metrics",
      Py VNone [("program_expense_ratio", Py (VFloat (3 # 4)) []);
                ("ein", Py (VStr "nested") [])])].

Definition evaluate_fixed (ein : cell) : res pyobj := Ok charity.

(** An entry that assigns its field on a non-empty selection: it is
    included, its source column exists and its verb is one of the four. *)
Definition assigns (df : DataFrame) (f : FieldConfig) : bool :=
  get_default (include f) false
  && in_columns (csv_field f) df
  && recognized_verb (aggregation f).

(** The numbers read from the text cells of a column after the currency
    pattern is removed. *)
Definition parsed_values (float_of_string : string -> option Q)
    (vals : list cell) : list Q :=
  flat_map (fun c => match c with
                     | Str s =>
                         match float_of_string (strip_currency s) with
                         | Some q => [q]
                         | None => []
                         end
                     | _ => []
                     end) vals.

(** A cell the currency branch can use: missing, or text that reads as a
    number once the pattern is removed. *)
Definition clean_cell (float_of_string : string -> option Q) (c : cell)
  : Prop :=
  c = NaN \/
  exists s q, c = Str s /\ float_of_string (strip_currency s) = Some q.


(** The characters of the pattern [[\$,]]. *)
Definition is_currency_mark (c : ascii) : bool :=
  Ascii.eqb c "$" || Ascii.eqb c ",".

(** The keys of batch [batch_num], as the loop of [main] slices them. *)
Definition batch_of (config : Config) (unique_eins : list cell)
    (batch_num : Z) : list cell :=
  slice unique_eins (batch_num * batch config)
    (Z.min (batch_num * batch config + batch config)
           (Z.of_nat (length unique_eins))).

(** The number of batches [main] computes. *)
Definition total_batches (config : Config) (unique_eins : list cell) : Z :=
  ((Z.of_nat (length unique_eins) + batch config - 1) / batch config)%Z.

(** All rows of the frames written, in the order they were written. *)
Definition written_rows (files : list (string * OutFrame))
  : list (list (option out_value)) :=
  concat (map (fun file => out_rows (snd file)) files).

(** A table with three keys, a row without key, and a key whose amounts
    are unusable. *)
Definition donations : DataFrame :=
  mkDataFrame [("Tax ID", DObject); ("Amount", DObject)]
    [[Str "11-1111111"; Str "$100.00"];
     [Str "22-2222222"; Str "$50"];
     [Str "11-1111111"; Str "$1,000.00"];
     [NaN; Str "$5"];
     [Str "33-3333333"; Str "bad"];
     [Str "33-3333333"; NaN]].

(** Batches of two keys; the output lists [ein] and the aggregate [n]. *)
Definition counting_config : Config :=
  mkConfig 0 2 "out" [("ein", true); ("mission", false); ("n", true)]
    [("n", count_on (Some "Amount"))].

Definition summing_config : Config :=
  mkConfig 0 2 "out" [("ein", true); ("mission", false); ("n", true)]
    [("n", spec_on "sum" "currency")].

(** The same output without batching. *)
Definition unbatched_config : Config :=
  mkConfig 0 0 "out" [("ein", true); ("mission", false); ("n", true)]
    [("n", count_on (Some "Amount"))].

Definition run_main : Config -> DataFrame
                      -> list (string * OutFrame) * option exn :=
  main Decimal.float_of_string IsoDate.to_datetime evaluate_fixed.

(** * Properties *)

(** ** Dictionaries *)

Lemma dict_get_set_same {V : Type} (d : dict V) (k : string) (v : V) :
  dict_get (dict_set d k v) k = Some v.
Proof.
  induction d as [|[k' v'] d IH]; simpl.
  - now rewrite String.eqb_refl.
  - destruct (k' =? k) eqn:E; simpl; rewrite E; auto.
Qed.

Lemma dict_get_set_other {V : Type} (d : dict V) (k k' : string) (v : V) :
  k <> k' -> dict_get (dict_set d k v) k' = dict_get d k'.
Proof.
  intros Hne.
  induction d as [|[k0 v0] d IH]; simpl.
  - apply String.eqb_neq in Hne. now rewrite Hne.
  - destruct (k0 =? k) eqn:E; simpl.
    + apply String.eqb_eq in E. subst k0.
      apply String.eqb_neq in Hne. now rewrite Hne.
    + now rewrite IH.
Qed.

(** ** The partitioner *)

Lemma cell_eqb_spec (a b : cell) : cell_eqb a b = true <-> cell_eq a b.
Proof.
  destruct a, b; simpl; try (split; [discriminate | contradiction]).
  - apply String.eqb_eq.
  - apply Qeq_bool_iff.
Qed.

Lemma mask_rows_map (p : list cell -> bool) (rs : list (list cell)) :
  mask_rows rs (map p rs) = filter p rs.
Proof.
  induction rs as [|r rs IH]; simpl; [reflexivity|].
  destruct (p r); now rewrite IH.
Qed.

Lemma select_rows (df : DataFrame) (c : string) (k : cell)
    (j : nat) (dt : dtype) :
  column_index c (columns df) = Some (j, dt) ->
  select df c k =
    Ok (mkDataFrame (columns df)
          (filter (fun r => cell_eqb (nth j r NaN) k) (rows df))).
Proof.
  intros Hc. unfold select, getitem. rewrite Hc. simpl.
  unfold bool_index, eq_scalar. simpl.
  rewrite map_map.
  now rewrite (mask_rows_map (fun r => cell_eqb (nth j r NaN) k)).
Qed.

Lemma filter_nil_when_none {A : Type} (p : A -> bool) (l : list A) :
  (forall x, In x l -> p x = false) -> filter p l = [].
Proof.
  induction l as [|x l IH]; simpl; intros H; [reflexivity|].
  rewrite (H x (or_introl eq_refl)). apply IH. intros y Hy. apply H. now right.
Qed.

(** C6. For every table with the key column, [select] succeeds and returns
    exactly the rows whose key cell equals the key, in the table's order
    (the filtered row list), with the columns unchanged; when no row matches
    the result has no rows. *)
Theorem select_partition (df : DataFrame) (c : string) (k : cell)
    (j : nat) (dt : dtype) :
  column_index c (columns df) = Some (j, dt) ->
  exists sub,
    select df c k = Ok sub /\
    columns sub = columns df /\
    rows sub = filter (fun r => cell_eqb (nth j r NaN) k) (rows df) /\
    (forall r, In r (rows sub) <->
               In r (rows df) /\ cell_eq (nth j r NaN) k) /\
    ((forall r, In r (rows df) -> ~ cell_eq (nth j r NaN) k) ->
     rows sub = []).
Proof.
  intros Hc. eexists. split; [apply (select_rows df c k j dt Hc)|].
  simpl. split; [reflexivity|]. split; [reflexivity|]. split.
  - intros r. rewrite filter_In, cell_eqb_spec. tauto.
  - intros Hnone. apply filter_nil_when_none. intros r Hr.
    destruct (cell_eqb (nth j r NaN) k) eqn:E; [|reflexivity].
    apply cell_eqb_spec in E. now apply Hnone in E.
Qed.

Lemma select_partition_witness :
  exists sub,
    select (amounts DObject [Str "$5"; Str "$7"]) "Tax ID" (Str "11-1111111")
      = Ok sub /\
    rows sub = [[Str "11-1111111"; Str "$5"]; [Str "11-1111111"; Str "$7"]].
Proof.
  destruct (select_partition (amounts DObject [Str "$5"; Str "$7"])
              "Tax ID" (Str "11-1111111") 0 DObject eq_refl)
    as [sub [H1 [_ [H3 _]]]].
  exists sub. split; [exact H1 | exact H3].
Defined.

(** ** The engine, field by field *)

Ltac bind_cases :=
  repeat match goal with
  | H : Ok _ = Ok _ |- _ => injection H as H
  | H : Raise _ = Ok _ |- _ => discriminate H
  | H : context [bind ?m _] |- _ =>
      let E := fresh "E" in destruct m eqn:E; simpl in H
  | H : context [if ?b then _ else _] |- _ =>
      let E := fresh "E" in destruct b eqn:E; simpl in H
  end.

Section EngineFacts.

Variable float_of_string : string -> option Q.
Variable to_datetime : list cell -> list (option Z).

Local Abbreviation step := (aggregate_field float_of_string to_datetime).
Local Abbreviation steps := (aggregate_fields float_of_string to_datetime).
Local Abbreviation run :=
  (compute_ein_aggregates float_of_string to_datetime).

Lemma in_columns_getitem (d : DataFrame) (c : option string) :
  in_columns c d = true ->
  exists s, getitem d (get_default c "") = Ok s /\
            length (s_values s) = length (rows d).
Proof.
  unfold in_columns, getitem. destruct c as [c|]; [|discriminate].
  simpl. destruct (column_index c (columns d)) as [[j dt]|]; [|discriminate].
  intros _. eexists. split; [reflexivity|]. simpl. apply length_map.
Qed.

(** A step either leaves the record alone or assigns its own field. *)
Lemma aggregate_field_shape (d : DataFrame) (r r' : dict value)
    (n : string) (f : FieldConfig) :
  step d r n f = Ok r' ->
  r' = r \/ exists v, r' = dict_set r n v.
Proof.
  unfold aggregate_field. intros H.
  bind_cases; subst; eauto.
Qed.



Lemma aggregate_fields_app (d : DataFrame)
    (a b : list (string * FieldConfig)) (r : dict value) :
  steps d (a ++ b) r =
  (r' <- steps d a r ;; steps d b r').
Proof.
  revert r. induction a as [|[n f] a IH]; simpl; intros r; [reflexivity|].
  destruct (step d r n f);
    simpl; auto.
Qed.

Lemma aggregate_field_unknown_verb (d : DataFrame) (r : dict value)
    (n : string) (f : FieldConfig) :
  recognized_verb (aggregation f) = false ->
  step d r n f = Ok r.
Proof.
  unfold recognized_verb. intros H.
  apply orb_false_iff in H. destruct H as [H Hfirst].
  apply orb_false_iff in H. destruct H as [H Hmax].
  apply orb_false_iff in H. destruct H as [Hsum Hcount].
  unfold aggregate_field.
  destruct (negb (get_default (include f) false)); [reflexivity|].
  destruct (in_columns (csv_field f) d) eqn:Hin; simpl; [|reflexivity].
  destruct (in_columns_getitem d (csv_field f) Hin) as [s [-> _]]. simpl.
  now rewrite Hsum, Hcount, Hmax, Hfirst.
Qed.

Lemma aggregate_field_unknown_clean (d : DataFrame) (r : dict value)
    (n : string) (f : FieldConfig) :
  str_is (data_clean f) "currency" = false ->
  step d r n f = step d r n (with_clean f (Some "none")).
Proof.
  intros H. unfold aggregate_field. simpl.
  now rewrite H.
Qed.

Lemma aggregate_fields_replace (d : DataFrame)
    (pre post : list (string * FieldConfig)) (r : dict value)
    (n : string) (f g : FieldConfig) :
  (forall r0, step d r0 n f = step d r0 n g) ->
  steps d (pre ++ (n, f) :: post) r =
  steps d (pre ++ (n, g) :: post) r.
Proof.
  intros H. rewrite !aggregate_fields_app.
  destruct (steps d pre r) as [r1|e]; simpl; [|reflexivity].
  now rewrite H.
Qed.

Lemma aggregate_fields_drop (d : DataFrame)
    (pre post : list (string * FieldConfig)) (r : dict value)
    (n : string) (f : FieldConfig) :
  (forall r0, step d r0 n f = Ok r0) ->
  steps d (pre ++ (n, f) :: post) r =
  steps d (pre ++ post) r.
Proof.
  intros H. rewrite !aggregate_fields_app.
  destruct (steps d pre r) as [r1|e]; simpl; [|reflexivity].
  now rewrite H.
Qed.

(** C7. When the key selects no row, the engine returns the empty record
    for every configuration: no field is present, and nothing is
    raised. *)
Theorem empty_selection_gives_empty_record (df : DataFrame) (ein : cell)
    (cfg : list (string * FieldConfig)) (ein_data : DataFrame) :
  select df "Tax ID" ein = Ok ein_data ->
  rows ein_data = [] ->
  run df ein cfg = Ok [] /\
  forall rec name,
    run df ein cfg = Ok rec -> dict_get rec name = None.
Proof.
  intros Hsel Hrows.
  assert (Hrun : run df ein cfg = Ok []).
  { unfold compute_ein_aggregates.
    rewrite Hsel. simpl. unfold df_empty. now rewrite Hrows. }
  split; [exact Hrun|].
  intros rec name H. rewrite Hrun in H. now injection H as <-.
Qed.

(** C3 (as the code has it). Nothing is validated: an entry whose verb is
    not one of sum, count, max, first contributes nothing, so the run is
    the run of the configuration without that entry; an entry whose
    cleaning rule is not currency is processed as if the rule were none. *)
Theorem unknown_entries_are_not_rejected (df : DataFrame) (ein : cell)
    (pre post : list (string * FieldConfig)) (n : string)
    (f : FieldConfig) :
  (recognized_verb (aggregation f) = false ->
   run df ein (pre ++ (n, f) :: post) =
   run df ein (pre ++ post)) /\
  (str_is (data_clean f) "currency" = false ->
   run df ein (pre ++ (n, f) :: post) =
   run df ein
     (pre ++ (n, with_clean f (Some "none")) :: post)).
Proof.
  unfold compute_ein_aggregates.
  split; intros H; destruct (select df "Tax ID" ein) as [d|e]; simpl;
    try reflexivity; destruct (df_empty d); try reflexivity.
  - apply aggregate_fields_drop. intros r0.
    now apply aggregate_field_unknown_verb.
  - apply aggregate_fields_replace. intros r0.
    now apply aggregate_field_unknown_clean.
Qed.

End EngineFacts.

Section CountFacts.

Variable float_of_string : string -> option Q.
Variable to_datetime : list cell -> list (option Z).

Local Abbreviation step := (aggregate_field float_of_string to_datetime).
Local Abbreviation steps := (aggregate_fields float_of_string to_datetime).
Local Abbreviation run :=
  (compute_ein_aggregates float_of_string to_datetime).

Lemma select_columns (df sub : DataFrame) (c : string) (k : cell) :
  select df c k = Ok sub -> columns sub = columns df /\ columns df <> [].
Proof.
  unfold select, getitem.
  destruct (column_index c (columns df)) as [[j dt]|] eqn:Hc; simpl;
    [|discriminate].
  intros H. injection H as <-. simpl. split; [reflexivity|].
  intros Hnil. rewrite Hnil in Hc. discriminate Hc.
Qed.



End CountFacts.

(** ** Field extraction *)

Lemma extract_field_value_eq (result : pyobj) (field : string) :
  extract_field_value result field = Ok (first_holder_value result field).
Proof.
  unfold extract_field_value, first_holder_value, holders, probe_order,
    nested_has, nested_get, hasattr, getattr.
  repeat (simpl;
          match goal with
          | H : dict_get ?a ?f = _ |- context [dict_get ?a ?f] => rewrite H
          | |- context [dict_get (py_attrs ?h) ?f] =>
              let E := fresh "E" in destruct (dict_get (py_attrs h) f) eqn:E
          end);
    reflexivity.
Qed.

(** C10. [extract_field_value] never raises; it returns the attribute of
    the first holder in probe order (the result, then financial_metrics,
    compliance_check, external_validation, organization_type) that has the
    field, [None] when none has it, and an attribute of the result itself
    wins over any nested one. *)
Theorem extract_field_value_first_holder (result : pyobj) (field : string) :
  extract_field_value result field = Ok (first_holder_value result field) /\
  (forall v, dict_get (py_attrs result) field = Some v ->
             extract_field_value result field = Ok v) /\
  ((forall h, In h (holders result) -> hasattr h field = false) ->
   extract_field_value result field = Ok py_None).
Proof.
  split; [apply extract_field_value_eq|]. split.
  - intros v Hv. unfold extract_field_value, hasattr, getattr.
    now rewrite Hv.
  - intros Hnone. rewrite extract_field_value_eq.
    unfold first_holder_value.
    destruct (find (fun h => hasattr h field) (holders result)) as [h|] eqn:E;
      [|reflexivity].
    apply find_some in E. destruct E as [Hin Hhas].
    rewrite (Hnone h Hin) in Hhas. discriminate Hhas.
Qed.

(** ** More on dictionaries: keys stay distinct, and [update] *)

Lemma dict_get_none {V : Type} (d : dict V) (k : string) :
  ~ In k (map fst d) -> dict_get d k = None.
Proof.
  induction d as [|[k' v'] d IH]; simpl; intros H; [reflexivity|].
  destruct (k' =? k) eqn:E.
  - apply String.eqb_eq in E. tauto.
  - apply IH. tauto.
Qed.

Lemma dict_set_keys {V : Type} (d : dict V) (k k' : string) (v : V) :
  In k' (map fst (dict_set d k v)) -> k' = k \/ In k' (map fst d).
Proof.
  induction d as [|[k0 v0] d IH]; simpl.
  - intros [H|[]]. now left.
  - destruct (k0 =? k); simpl; intros [H|H]; auto.
    destruct (IH H); auto.
Qed.

Lemma dict_set_nodup {V : Type} (d : dict V) (k : string) (v : V) :
  NoDup (map fst d) -> NoDup (map fst (dict_set d k v)).
Proof.
  induction d as [|[k0 v0] d IH]; simpl; intros H.
  - constructor; [intros []|constructor].
  - inversion H as [|? ? Hnotin Hrest]; subst.
    destruct (k0 =? k) eqn:E; simpl.
    + now constructor.
    + constructor; [|now apply IH].
      intros Hin. apply dict_set_keys in Hin. destruct Hin as [->|Hin].
      * rewrite String.eqb_refl in E. discriminate E.
      * contradiction.
Qed.

Lemma dict_get_update {V : Type} (other d : dict V) (k : string) :
  NoDup (map fst other) ->
  dict_get (dict_update d other) k =
  match dict_get other k with
  | Some v => Some v
  | None => dict_get d k
  end.
Proof.
  unfold dict_update. revert d.
  induction other as [|[k0 v0] other IH]; simpl; intros d Hnd;
    [reflexivity|].
  inversion Hnd as [|? ? Hnotin Hrest]; subst.
  rewrite (IH _ Hrest).
  destruct (k0 =? k) eqn:E.
  - apply String.eqb_eq in E. subst k0.
    rewrite (dict_get_none other k Hnotin). apply dict_get_set_same.
  - apply String.eqb_neq in E.
    now rewrite (dict_get_set_other d k0 k v0 E).
Qed.

Lemma dict_get_map {V W : Type} (g : V -> W) (d : dict V) (k : string) :
  dict_get (map (fun kv => (fst kv, g (snd kv))) d) k =
  option_map g (dict_get d k).
Proof.
  induction d as [|[k0 v0] d IH]; simpl; [reflexivity|].
  destruct (k0 =? k); [reflexivity|exact IH].
Qed.

Section PipelineFacts.

Variable float_of_string : string -> option Q.
Variable to_datetime : list cell -> list (option Z).
Variable evaluate_charity : cell -> res pyobj.

Local Abbreviation run :=
  (compute_ein_aggregates float_of_string to_datetime).

Lemma aggregate_fields_nodup (d : DataFrame)
    (items : list (string * FieldConfig)) (r r' : dict value) :
  NoDup (map fst r) ->
  aggregate_fields float_of_string to_datetime d items r = Ok r' ->
  NoDup (map fst r').
Proof.
  revert r. induction items as [|[n f] items IH]; simpl; intros r Hnd H.
  - now injection H as <-.
  - destruct (aggregate_field float_of_string to_datetime d r n f)
      as [r1|e] eqn:E; simpl in H; [|discriminate].
    apply (IH r1); [|exact H].
    apply aggregate_field_shape in E. destruct E as [->|[v ->]];
      [exact Hnd | now apply dict_set_nodup].
Qed.

Lemma compute_ein_aggregates_nodup (df : DataFrame) (ein : cell)
    (cfg : list (string * FieldConfig)) (rec : dict value) :
  run df ein cfg = Ok rec -> NoDup (map fst rec).
Proof.
  unfold compute_ein_aggregates. intros H.
  destruct (select df "Tax ID" ein) as [d|e]; simpl in H; [|discriminate].
  destruct (df_empty d).
  - injection H as <-. constructor.
  - apply (aggregate_fields_nodup d cfg [] rec); [constructor|exact H].
Qed.

Lemma extract_fields_eq (result : pyobj) (fields : list string)
    (row_data : dict out_value) :
  extract_fields result fields row_data =
  Ok (extracted result fields row_data).
Proof.
  revert row_data. induction fields as [|f fields IH]; simpl; intros rd;
    [reflexivity|].
  rewrite extract_field_value_eq. simpl. apply IH.
Qed.

Lemma dict_get_extracted (result : pyobj) (fields : list string)
    (row_data : dict out_value) (k : string) :
  dict_get (extracted result fields row_data) k =
  if existsb (String.eqb k) fields
  then Some (Enriched (first_holder_value result k))
  else dict_get row_data k.
Proof.
  unfold extracted. revert row_data.
  induction fields as [|f fields IH]; simpl; intros rd; [reflexivity|].
  rewrite IH. destruct (existsb (String.eqb k) fields).
  - now rewrite orb_true_r.
  - rewrite orb_false_r. destruct (k =? f) eqn:E.
    + apply String.eqb_eq in E. subst f. now rewrite dict_get_set_same.
    + apply String.eqb_neq in E. apply dict_get_set_other. congruence.
Qed.

Lemma process_ein_row (ein : cell) (fields : list string)
    (input_df : DataFrame) (cfg : list (string * FieldConfig))
    (result : pyobj) (aggregates : dict value) :
  evaluate_charity ein = Ok result ->
  run input_df ein cfg = Ok aggregates ->
  exists row_data,
    process_ein float_of_string to_datetime evaluate_charity
      ein fields input_df cfg = Ok row_data /\
    map (dict_get row_data) fields = map (merged_cell result aggregates) fields.
Proof.
  intros Hev Hagg. unfold process_ein. rewrite Hev. simpl.
  rewrite extract_fields_eq. simpl. rewrite Hagg. simpl.
  eexists. split; [reflexivity|].
  apply map_ext_in. intros f Hf.
  rewrite dict_get_update, dict_get_map.
  - unfold merged_cell. destruct (dict_get aggregates f); simpl; [reflexivity|].
    rewrite dict_get_extracted.
    assert (Hex : existsb (String.eqb f) fields = true).
    { apply existsb_exists. exists f. split; [exact Hf|apply String.eqb_refl]. }
    now rewrite Hex.
  - rewrite map_map. simpl.
    apply (compute_ein_aggregates_nodup _ _ _ _ Hagg).
Qed.

Lemma process_ein_inv (ein : cell) (fields : list string)
    (input_df : DataFrame) (cfg : list (string * FieldConfig))
    (row_data : dict out_value) :
  process_ein float_of_string to_datetime evaluate_charity
    ein fields input_df cfg = Ok row_data ->
  exists result aggregates,
    evaluate_charity ein = Ok result /\
    run input_df ein cfg = Ok aggregates.
Proof.
  unfold process_ein. intros H.
  destruct (evaluate_charity ein) as [result|e]; simpl in H; [|discriminate].
  rewrite extract_fields_eq in H. simpl in H.
  destruct (run input_df ein cfg) as [aggregates|e]; simpl in H;
    [|discriminate].
  now exists result, aggregates.
Qed.

Lemma process_batch_shape (eins : list cell)
    (fields : list string) (input_df : DataFrame)
    (cfg : list (string * FieldConfig)) (out : OutFrame) :
  process_batch float_of_string to_datetime evaluate_charity
    eins fields input_df cfg = Ok out ->
  out_columns out = fields /\
  Forall2 (fun ein row =>
             exists result aggregates,
               evaluate_charity ein = Ok result /\
               run input_df ein cfg = Ok aggregates /\
               row = map (merged_cell result aggregates) fields)
          eins (out_rows out).
Proof.
  unfold process_batch. intros H.
  destruct (process_rows float_of_string to_datetime evaluate_charity
              eins fields input_df cfg) as [rs|e] eqn:Hrs; simpl in H;
    [|discriminate].
  injection H as <-. simpl. split; [reflexivity|].
  revert rs Hrs. induction eins as [|ein eins IH]; simpl; intros rs Hrs.
  - injection Hrs as <-. constructor.
  - destruct (process_ein float_of_string to_datetime evaluate_charity
                ein fields input_df cfg) as [rd|e] eqn:Hrd; simpl in Hrs;
      [|discriminate].
    destruct (process_rows float_of_string to_datetime evaluate_charity
                eins fields input_df cfg) as [rest|e] eqn:Hrest;
      simpl in Hrs; [|discriminate].
    injection Hrs as <-. simpl. constructor; [|now apply IH].
    destruct (process_ein_inv _ _ _ _ _ Hrd) as [result [aggs [Hev Hagg]]].
    exists result, aggs. split; [exact Hev|]. split; [exact Hagg|].
    destruct (process_ein_row ein fields input_df cfg result aggs Hev Hagg)
      as [rd' [Hrd' Hmap]].
    rewrite Hrd in Hrd'. injection Hrd' as <-. exact Hmap.
Qed.

Lemma process_batch_returns (eins : list cell)
    (fields : list string) (input_df : DataFrame)
    (cfg : list (string * FieldConfig)) :
  (forall ein, In ein eins ->
      exists result aggregates,
        evaluate_charity ein = Ok result /\
        run input_df ein cfg = Ok aggregates) ->
  exists out,
    process_batch float_of_string to_datetime evaluate_charity
      eins fields input_df cfg = Ok out.
Proof.
  intros Hall. unfold process_batch.
  assert (H : exists rs,
             process_rows float_of_string to_datetime evaluate_charity
               eins fields input_df cfg = Ok rs).
  { induction eins as [|ein eins' IH]; simpl; [now exists []|].
    destruct (Hall ein (or_introl eq_refl)) as [result [aggs [Hev Hagg]]].
    destruct (process_ein_row ein fields input_df cfg result aggs Hev Hagg)
      as [rd [Hrd _]].
    rewrite Hrd. simpl.
    destruct IH as [rest Hrest].
    { intros e He. apply Hall. now right. }
    rewrite Hrest. simpl. now eexists. }
  destruct H as [rs ->]. simpl. now eexists.
Qed.

(** C9 (as the code has it). The frame returned by [process_batch] has
    exactly the columns [fields], in that order, and one row per key; under
    each column a row holds the aggregate of that name when the engine
    produced one for the key, and otherwise the value extracted from the
    key's enrichment record.  Aggregates whose name is not in [fields] do
    not appear.  The frame is returned whenever the enrichment call and the
    engine succeed on every key. *)
Theorem process_batch_projects_on_fields (eins : list cell)
    (fields : list string) (input_df : DataFrame)
    (cfg : list (string * FieldConfig)) :
  (forall out,
      process_batch float_of_string to_datetime evaluate_charity
        eins fields input_df cfg = Ok out ->
      out_columns out = fields /\
      Forall2 (fun ein row =>
                 exists result aggregates,
                   evaluate_charity ein = Ok result /\
                   run input_df ein cfg = Ok aggregates /\
                   row = map (merged_cell result aggregates) fields)
              eins (out_rows out)) /\
  ((forall ein, In ein eins ->
      exists result aggregates,
        evaluate_charity ein = Ok result /\
        run input_df ein cfg = Ok aggregates) ->
   exists out,
     process_batch float_of_string to_datetime evaluate_charity
       eins fields input_df cfg = Ok out).
Proof.
  split.
  - intros out. apply process_batch_shape.
  - apply process_batch_returns.
Qed.

End PipelineFacts.

(** ** Batching *)

Section Batching.

Context {A : Type}.

Lemma firstn_add (a b : nat) (l : list A) :
  firstn (a + b) l = firstn a l ++ firstn b (skipn a l).
Proof.
  revert l. induction a as [|a IH]; intros l; simpl; [reflexivity|].
  destruct l as [|x l]; simpl.
  - now rewrite firstn_nil.
  - now rewrite IH.
Qed.

(** A batch is the next [batch] keys after [start], or what is left. *)
Lemma slice_chunk (l : list A) (start batch : Z) :
  (0 <= start)%Z -> (0 < batch)%Z ->
  slice l start (Z.min (start + batch) (Z.of_nat (length l))) =
  firstn (Z.to_nat batch) (skipn (Z.to_nat start) l).
Proof.
  intros Hs Hb. unfold slice.
  destruct (Z.le_gt_cases (start + batch) (Z.of_nat (length l))) as [Hle|Hgt].
  - rewrite Z.min_l by exact Hle. f_equal. lia.
  - rewrite Z.min_r by lia.
    rewrite (firstn_all2 (n := Z.to_nat batch)).
    + apply firstn_all2. rewrite length_skipn. lia.
    + rewrite length_skipn. lia.
Qed.

Lemma concat_chunks (l : list A) (b t : nat) :
  concat (map (chunk l b) (seq 0 t)) = firstn (t * b) l.
Proof.
  induction t as [|t IH]; [reflexivity|].
  rewrite seq_S, map_app, concat_app, IH. simpl.
  rewrite app_nil_r. unfold chunk.
  replace (b + t * b) with (t * b + b) by lia.
  now rewrite firstn_add.
Qed.

Lemma batches_chunks (l : list A) (batch : Z) :
  (0 < batch)%Z ->
  batches l batch =
  map (chunk l (Z.to_nat batch))
      (seq 0 (Z.to_nat ((Z.of_nat (length l) + batch - 1) / batch))).
Proof.
  intros Hb. unfold batches, range.
  destruct (batch >? 0)%Z eqn:E; [|lia].
  rewrite map_map. apply map_ext. intros i.
  rewrite slice_chunk by lia. unfold chunk. do 2 f_equal. lia.
Qed.

Lemma batch_count_bounds (n batch : Z) :
  (0 <= n)%Z -> (0 < batch)%Z ->
  let t := ((n + batch - 1) / batch)%Z in
  (0 <= t /\ n <= t * batch /\ (t - 1) * batch < n)%Z.
Proof.
  intros Hn Hb t.
  pose proof (Z.div_mod (n + batch - 1) batch ltac:(lia)) as Hdm.
  pose proof (Z.mod_pos_bound (n + batch - 1) batch Hb) as Hmod.
  fold t in Hdm. nia.
Qed.

(** The slices: with a positive batch size they are consecutive chunks of
    the key sequence, their concatenation is the sequence itself, none is
    empty or longer than the batch size, and all but the last have exactly
    that size.  With a batch size of zero or less there is one, the whole
    sequence. *)
Theorem batches_partition_keys (unique_eins : list A) (batch : Z) :
  concat (batches unique_eins batch) = unique_eins /\
  ((0 < batch)%Z ->
   Forall (fun c => 0 < length c <= Z.to_nat batch)
          (batches unique_eins batch) /\
   forall i, S i < length (batches unique_eins batch) ->
             length (nth i (batches unique_eins batch) []) = Z.to_nat batch) /\
  ((batch <= 0)%Z -> batches unique_eins batch = [unique_eins]).
Proof.
  destruct (Z.lt_ge_cases 0 batch) as [Hpos|Hneg].
  - pose proof (batch_count_bounds (Z.of_nat (length unique_eins)) batch
                  ltac:(lia) Hpos) as Hb. simpl in Hb.
    rewrite (batches_chunks unique_eins batch Hpos).
    set (t := Z.to_nat ((Z.of_nat (length unique_eins) + batch - 1) / batch))
      in *.
    set (b := Z.to_nat batch) in *.
    assert (Hcover : length unique_eins <= t * b) by (subst t b; nia).
    assert (Hlast : forall i, i < t -> i * b < length unique_eins).
    { intros i Hi. subst t b. nia. }
    split; [|split].
    + rewrite concat_chunks. now apply firstn_all2.
    + intros _. split.
      * apply Forall_forall. intros c Hc. apply in_map_iff in Hc.
        destruct Hc as [i [<- Hi]]. apply in_seq in Hi.
        unfold chunk. rewrite length_firstn, length_skipn.
        pose proof (Hlast i ltac:(lia)). subst b. lia.
      * intros i Hi. rewrite length_map, length_seq in Hi.
        rewrite (nth_indep _ [] (chunk unique_eins b 0))
          by (rewrite length_map, length_seq; lia).
        rewrite (map_nth (chunk unique_eins b)).
        rewrite seq_nth by lia. simpl.
        unfold chunk. rewrite length_firstn, length_skipn.
        pose proof (Hlast (S i) Hi). simpl in *. lia.
    + intros Hle. lia.
  - unfold batches. destruct (batch >? 0)%Z eqn:E; [lia|].
    simpl. rewrite app_nil_r. split; [reflexivity|].
    split; [intros; lia | reflexivity].
Qed.

End Batching.

(** ** Coercion of a whole column *)

Section CoercionFacts.

Variable float_of_string : string -> option Q.

Local Abbreviation astype := (astype_float_ignore float_of_string).

(** When every cell of a text column coerces, the column becomes numeric and
    the reductions are the numeric ones. *)
Lemma astype_all_coerce (s : Series) (vs : list cell) :
  s_dtype s = DObject ->
  coerce_all float_of_string (s_values s) = Some vs ->
  series_sum (astype s) = Ok (VFloat (float_sum vs)) /\
  series_max (astype s) = Ok (float_max vs).
Proof.
  intros Hdt Hco. unfold astype_float_ignore. rewrite Hdt, Hco.
  split; reflexivity.
Qed.

(** When one cell fails, the column comes back as it was. *)
Lemma astype_one_failure (s : Series) :
  s_dtype s = DObject ->
  coerce_all float_of_string (s_values s) = None ->
  astype s = s.
Proof.
  intros Hdt Hco. unfold astype_float_ignore. now rewrite Hdt, Hco.
Qed.

Lemma coerce_all_fails_on (l : list cell) (x : string) :
  In (Str x) l -> float_of_string x = None ->
  coerce_all float_of_string l = None.
Proof.
  induction l as [|c l IH]; simpl; intros Hin Hx; [contradiction|].
  destruct Hin as [->|Hin].
  - simpl. now rewrite Hx.
  - rewrite (IH Hin Hx). now destruct (to_float_cell float_of_string c).
Qed.

End CoercionFacts.

(** * Worked cases *)

(** ** Cases of the specification that the code meets *)

Example currency_sum_clean :
  aggregate (amounts DObject [Str "$1,000.00"; Str "$250.50"]) key1
    [("total", spec_on "sum" "currency")]
  = Ok [("total", VFloat (2501 # 2))].
Proof. reflexivity. Qed.

Example currency_sum_skips_missing :
  aggregate (amounts DObject [Str "$100.00"; NaN; Str "$50"]) key1
    [("total", spec_on "sum" "currency")]
  = Ok [("total", VFloat 150)].
Proof. reflexivity. Qed.

Example currency_max_clean :
  aggregate (amounts DObject [Str "$5"; Str "$12"; Str "$3"]) key1
    [("top", spec_on "max" "currency")]
  = Ok [("top", VFloat 12)].
Proof. reflexivity. Qed.

Example date_max_skips_unreadable :
  aggregate
    (amounts DObject [Str "2024-01-01"; Str "2024-03-15"; Str "not-a-date"])
    key1 [("last", spec_on "max" "none")]
  = Ok [("last", VTimestamp 1710460800000000000)] /\
  IsoDate.timestamp_of_string "2024-03-15" = Some 1710460800000000000%Z.
Proof. split; reflexivity. Qed.

(** ** C1, C2, C5: one unusable cell undoes the coercion of the column *)

(** C1. On the values of the specification's own example the currency sum
    is not 1250.50: [astype(float, errors="ignore")] hands back the stripped
    text column because of the entry "bad", and [sum] concatenates it. *)
Theorem currency_sum_keeps_bad_entry :
  aggregate (amounts DObject [Str "$1,000.00"; Str "$250.50"; Str "bad"])
    key1 [("total", spec_on "sum" "currency")]
  = Ok [("total", VStr "1000.00250.50bad")].
Proof. reflexivity. Qed.

(** C2. Per-row data makes the engine raise and the key's record is lost:
    a missing cell next to an uncoercible one ends the sum in a TypeError,
    and a column that is blank in every row has no string accessor, so
    currency cleaning ends in an AttributeError; in both runs the count
    field computed before is lost with the record. *)
Theorem bad_cells_raise :
  aggregate (amounts DObject [Str "$100.00"; NaN; Str "bad"]) key1
    [("n", count_on (Some "Amount")); ("total", spec_on "sum" "currency")]
  = Raise TypeError /\
  aggregate (amounts DFloat [NaN; NaN]) key1
    [("n", count_on (Some "Amount")); ("total", spec_on "sum" "currency")]
  = Raise AttributeError.
Proof. split; reflexivity. Qed.

(** C5. With an uncoercible entry the currency maximum is not numeric: the
    column stays text and [max] is the greatest string. *)
Theorem currency_max_keeps_bad_entry :
  aggregate (amounts DObject [Str "$5"; Str "$12"; Str "bad"]) key1
    [("top", spec_on "max" "currency")]
  = Ok [("top", VStr "bad")].
Proof. reflexivity. Qed.

(** ** C3: no validation *)

(** An unrecognized verb on a non-empty table: the run returns normally,
    the entry is skipped and the other field is computed. *)
Lemma unknown_verb_not_rejected :
  aggregate (amounts DObject [Str "$5"; Str "$7"]) key1
    [("avg", spec_on "average" "currency"); ("n", count_on (Some "Amount"))]
  = Ok [("n", VInt 2)] /\
  ~ raises (aggregate (amounts DObject [Str "$5"; Str "$7"]) key1
              [("avg", spec_on "average" "currency");
               ("n", count_on (Some "Amount"))]).
Proof.
  split; [reflexivity|]. intros [e He]. discriminate He.
Qed.

Lemma unknown_entries_witness :
  aggregate (amounts DObject [Str "$5"; Str "$7"]) key1
    [("avg", spec_on "average" "currency"); ("n", count_on (Some "Amount"))]
  = aggregate (amounts DObject [Str "$5"; Str "$7"]) key1
      [("n", count_on (Some "Amount"))] /\
  aggregate (amounts DObject [Str "5"; Str "7"]) key1
    [("total", spec_on "sum" "percent")]
  = aggregate (amounts DObject [Str "5"; Str "7"]) key1
      [("total", spec_on "sum" "none")].
Proof.
  split.
  - exact (proj1 (unknown_entries_are_not_rejected
                    Decimal.float_of_string IsoDate.to_datetime
                    (amounts DObject [Str "$5"; Str "$7"]) key1
                    [] [("n", count_on (Some "Amount"))] "avg"
                    (spec_on "average" "currency")) eq_refl).
  - exact (proj2 (unknown_entries_are_not_rejected
                    Decimal.float_of_string IsoDate.to_datetime
                    (amounts DObject [Str "5"; Str "7"]) key1
                    [] [] "total" (spec_on "sum" "percent")) eq_refl).
Defined.

(** ** C4: count and the source column *)



(** ** C7: a key without rows *)

Lemma empty_selection_witness :
  aggregate (amounts DObject [Str "$5"; Str "$7"]) (Str "99-9999999")
    [("total", spec_on "sum" "currency"); ("n", count_on (Some "Amount"))]
  = Ok [].
Proof.
  exact (proj1 (empty_selection_gives_empty_record
           Decimal.float_of_string IsoDate.to_datetime
           (amounts DObject [Str "$5"; Str "$7"]) (Str "99-9999999")
           [("total", spec_on "sum" "currency");
            ("n", count_on (Some "Amount"))]
           (mkDataFrame [("Tax ID", DObject); ("Amount", DObject)] [])
           eq_refl eq_refl)).
Defined.

(** ** C8: batches of a key sequence *)

Example batches_of_two :
  batches [1; 2; 3; 4; 5] 2 = [[1; 2]; [3; 4]; [5]] /\
  batches [1; 2; 3; 4; 5] 0 = [[1; 2; 3; 4; 5]] /\
  batches [1; 2; 3; 4; 5] (-3) = [[1; 2; 3; 4; 5]] /\
  batches (@nil nat) 2 = [].
Proof. repeat split; reflexivity. Qed.

Lemma batches_witness :
  concat (batches [1; 2; 3; 4; 5] 2) = [1; 2; 3; 4; 5] /\
  Forall (fun c => 0 < length c <= 2) (batches [1; 2; 3; 4; 5] 2) /\
  batches [1; 2; 3; 4; 5] 0 = [[1; 2; 3; 4; 5]].
Proof.
  split; [|split].
  - exact (proj1 (batches_partition_keys [1; 2; 3; 4; 5] 2)).
  - exact (proj1 (proj1 (proj2 (batches_partition_keys [1; 2; 3; 4; 5] 2))
                    eq_refl)).
  - apply (proj2 (proj2 (batches_partition_keys [1; 2; 3; 4; 5] 0))).
    discriminate.
Defined.

(** ** C9 and C10: the output row *)

Example extract_examples :
  extract_field_value charity "ein" = Ok (Py (VStr "11-1111111") []) /\
  extract_field_value charity "program_expense_ratio"
    = Ok (Py (VFloat (3 # 4)) []) /\
  extract_field_value charity "total_donated" = Ok py_None.
Proof. repeat split; reflexivity. Qed.

Lemma extract_witness :
  extract_field_value charity "ein" = Ok (Py (VStr "11-1111111") []).
Proof.
  exact (proj1 (proj2 (extract_field_value_first_holder charity "ein"))
           (Py (VStr "11-1111111") []) eq_refl).
Defined.

(** The engine computes [total_donated] for the key, [fields] does not list
    it, and the emitted row has the single column [ein]: the aggregate is
    not serialized, and no aggregate column follows the enrichment
    columns. *)
Lemma aggregate_outside_fields_is_dropped :
  aggregate (amounts DObject [Str "$5"; Str "$7"]) key1
    [("total_donated", spec_on "sum" "currency")]
  = Ok [("total_donated", VFloat 12)] /\
  process_batch Decimal.float_of_string IsoDate.to_datetime evaluate_fixed
    [key1] ["ein"] (amounts DObject [Str "$5"; Str "$7"])
    [("total_donated", spec_on "sum" "currency")]
  = Ok (mkOutFrame ["ein"]
          [[Some (Enriched (Py (VStr "11-1111111") []))]]).
Proof. split; reflexivity. Qed.

(** When [fields] lists the aggregate's name, its column holds the
    aggregate, at the position [fields] gives it. *)
Example aggregate_inside_fields_is_kept :
  process_batch Decimal.float_of_string IsoDate.to_datetime evaluate_fixed
    [key1] ["total_donated"; "ein"] (amounts DObject [Str "$5"; Str "$7"])
    [("total_donated", spec_on "sum" "currency")]
  = Ok (mkOutFrame ["total_donated"; "ein"]
          [[Some (Aggregated (VFloat 12));
            Some (Enriched (Py (VStr "11-1111111") []))]]).
Proof. reflexivity. Qed.

Lemma process_batch_witness :
  out_columns
    (mkOutFrame ["ein"] [[Some (Enriched (Py (VStr "11-1111111") []))]])
  = ["ein"].
Proof.
  exact (proj1 (proj1 (process_batch_projects_on_fields
           Decimal.float_of_string IsoDate.to_datetime evaluate_fixed
           [key1] ["ein"] (amounts DObject [Str "$5"; Str "$7"])
           [("total_donated", spec_on "sum" "currency")])
           (mkOutFrame ["ein"]
              [[Some (Enriched (Py (VStr "11-1111111") []))]])
           eq_refl)).
Defined.

(** * Further properties of the engine *)

Lemma reduce_add_raises (acc : cell) (l : list cell) (e : exn) :
  reduce py_add acc l = Raise e -> e = TypeError.
Proof.
  revert acc. induction l as [|x l IH]; simpl; intros acc H; [discriminate|].
  destruct (py_add acc x) as [acc'|e'] eqn:E; simpl in H.
  - now apply (IH acc').
  - injection H as <-. destruct acc, x; simpl in E; congruence.
Qed.

Lemma reduce_max_raises (acc : pyel) (l : list pyel) (e : exn) :
  reduce_max acc l = Raise e -> e = TypeError.
Proof.
  revert acc. induction l as [|x l IH]; simpl; intros acc H; [discriminate|].
  destruct (py_max acc x) as [acc'|e'] eqn:E; simpl in H.
  - now apply (IH acc').
  - injection H as <-. destruct acc, x; simpl in E; congruence.
Qed.

Lemma series_sum_raises (s : Series) (e : exn) :
  series_sum s = Raise e -> e = TypeError.
Proof.
  unfold series_sum, obj_sum. destruct (s_dtype s); [|discriminate].
  destruct (map _ (s_values s)) as [|x l]; [discriminate|].
  destruct (reduce py_add x l) eqn:E; simpl; [discriminate|].
  intros H. injection H as <-. now apply reduce_add_raises in E.
Qed.

Lemma series_max_raises (s : Series) (e : exn) :
  series_max s = Raise e -> e = TypeError.
Proof.
  unfold series_max, obj_max. destruct (s_dtype s); [|discriminate].
  destruct (map fill_neg_inf (s_values s)) as [|x l]; [discriminate|].
  destruct (reduce_max x l) eqn:E; simpl; [discriminate|].
  intros H. injection H as <-. now apply reduce_max_raises in E.
Qed.

Lemma str_replace_currency_raises (s : Series) (e : exn) :
  str_replace_currency s = Raise e -> e = AttributeError.
Proof.
  unfold str_replace_currency. destruct (str_accessor_ok s); [discriminate|].
  congruence.
Qed.

Lemma find_filter_head {A : Type} (p : A -> bool) (l : list A) (x : A) :
  find p l = Some x -> exists rest, filter p l = x :: rest.
Proof.
  induction l as [|y l IH]; simpl; [discriminate|].
  destruct (p y) eqn:E.
  - intros H. injection H as <-. now eexists.
  - exact IH.
Qed.

Lemma dict_set_fresh_keys {V : Type} (d : dict V) (k : string) (v : V) :
  ~ In k (map fst d) -> map fst (dict_set d k v) = map fst d ++ [k].
Proof.
  induction d as [|[k0 v0] d IH]; simpl; intros H; [reflexivity|].
  destruct (k0 =? k) eqn:E.
  - apply String.eqb_eq in E. tauto.
  - simpl. rewrite IH; tauto.
Qed.

Section EngineExtras.

Variable float_of_string : string -> option Q.
Variable to_datetime : list cell -> list (option Z).

Local Abbreviation step := (aggregate_field float_of_string to_datetime).
Local Abbreviation steps := (aggregate_fields float_of_string to_datetime).
Local Abbreviation run :=
  (compute_ein_aggregates float_of_string to_datetime).

Lemma step_not_included (d : DataFrame) (r : dict value) (n : string)
    (f : FieldConfig) :
  get_default (include f) false = false -> step d r n f = Ok r.
Proof. intros H. unfold aggregate_field. now rewrite H. Qed.

Lemma step_no_column (d : DataFrame) (r : dict value) (n : string)
    (f : FieldConfig) :
  in_columns (csv_field f) d = false -> step d r n f = Ok r.
Proof.
  intros H. unfold aggregate_field. rewrite H.
  now destruct (negb (get_default (include f) false)).
Qed.

Lemma step_not_assigning (d : DataFrame) (r : dict value) (n : string)
    (f : FieldConfig) :
  assigns d f = false -> step d r n f = Ok r.
Proof.
  unfold assigns. intros H.
  apply andb_false_iff in H. destruct H as [H|H].
  - apply andb_false_iff in H. destruct H as [H|H].
    + now apply step_not_included.
    + now apply step_no_column.
  - now apply aggregate_field_unknown_verb.
Qed.

Lemma step_raises (d : DataFrame) (r : dict value) (n : string)
    (f : FieldConfig) (e : exn) :
  step d r n f = Raise e -> e = AttributeError \/ e = TypeError.
Proof.
  unfold aggregate_field. intros H.
  destruct (negb (get_default (include f) false)); [discriminate|].
  destruct (in_columns (csv_field f) d) eqn:Hin; simpl in H; [|discriminate].
  destruct (in_columns_getitem d (csv_field f) Hin) as [s [Hs _]].
  rewrite Hs in H. simpl in H.
  repeat match type of H with
  | (if ?b then _ else _) = _ => destruct b
  | bind ?m _ = _ => let E := fresh "E" in destruct m eqn:E; simpl in H
  | Ok _ = Raise _ => discriminate H
  | Raise _ = Raise _ => injection H as <-
  end;
  repeat match goal with
  | E : str_replace_currency _ = Raise _ |- _ =>
      apply str_replace_currency_raises in E
  | E : series_sum _ = Raise _ |- _ => apply series_sum_raises in E
  | E : series_max _ = Raise _ |- _ => apply series_max_raises in E
  end; auto.
Qed.

Lemma step_assigning (d : DataFrame) (r r' : dict value) (n : string)
    (f : FieldConfig) :
  assigns d f = true -> step d r n f = Ok r' ->
  exists v, r' = dict_set r n v.
Proof.
  unfold assigns, recognized_verb. intros Ha H.
  apply andb_true_iff in Ha. destruct Ha as [Ha Hverb].
  apply andb_true_iff in Ha. destruct Ha as [Hinc Hin].
  unfold aggregate_field in H. rewrite Hinc, Hin in H. simpl in H.
  destruct (in_columns_getitem d (csv_field f) Hin) as [s [Hs _]].
  rewrite Hs in H. simpl in H.
  destruct (str_is (aggregation f) "sum");
    [|destruct (str_is (aggregation f) "count");
      [|destruct (str_is (aggregation f) "max");
        [|destruct (str_is (aggregation f) "first");
          [|discriminate Hverb]]]];
  bind_cases; subst; eauto.
Qed.

Lemma steps_keys (d : DataFrame) (items : list (string * FieldConfig))
    (r r' : dict value) :
  NoDup (map fst r ++ map fst items) ->
  steps d items r = Ok r' ->
  map fst r' =
  map fst r ++ map fst (filter (fun nf => assigns d (snd nf)) items).
Proof.
  revert r. induction items as [|[n f] items IH]; simpl; intros r Hnd H.
  - injection H as <-. now rewrite app_nil_r.
  - destruct (step d r n f) as [r1|e] eqn:E; simpl in H; [|discriminate].
    destruct (assigns d f) eqn:Ha.
    + destruct (step_assigning d r r1 n f Ha E) as [v ->].
      assert (Hfresh : ~ In n (map fst r)).
      { intros Hin. apply NoDup_remove_2 in Hnd. apply Hnd.
        apply in_or_app. now left. }
      assert (Hnd' : NoDup (map fst (dict_set r n v) ++ map fst items)).
      { rewrite (dict_set_fresh_keys r n v Hfresh).
        rewrite <- app_assoc. exact Hnd. }
      rewrite (IH _ Hnd' H).
      rewrite (dict_set_fresh_keys r n v Hfresh). simpl.
      now rewrite <- app_assoc.
    + rewrite (step_not_assigning d r n f Ha) in E. injection E as <-.
      apply (IH _ (NoDup_remove_1 _ _ _ Hnd) H).
Qed.

End EngineExtras.

Section EngineTheorems.

Variable float_of_string : string -> option Q.
Variable to_datetime : list cell -> list (option Z).

Local Abbreviation step := (aggregate_field float_of_string to_datetime).
Local Abbreviation steps := (aggregate_fields float_of_string to_datetime).
Local Abbreviation run :=
  (compute_ein_aggregates float_of_string to_datetime).

Lemma in_columns_select (df sub : DataFrame) (k : cell)
    (c : option string) :
  select df "Tax ID" k = Ok sub -> in_columns c sub = in_columns c df.
Proof.
  intros H. destruct (select_columns df sub "Tax ID" k H) as [Hc _].
  unfold in_columns. now rewrite Hc.
Qed.

Lemma assigns_select (df sub : DataFrame) (k : cell) (f : FieldConfig) :
  select df "Tax ID" k = Ok sub -> assigns sub f = assigns df f.
Proof.
  intros H. unfold assigns. now rewrite (in_columns_select df sub k _ H).
Qed.


Lemma steps_raises (d : DataFrame) (items : list (string * FieldConfig))
    (r : dict value) (e : exn) :
  steps d items r = Raise e -> e = AttributeError \/ e = TypeError.
Proof.
  revert r. induction items as [|[n f] items IH]; simpl; intros r H;
    [discriminate|].
  destruct (step d r n f) as [r1|e1] eqn:E; simpl in H.
  - now apply (IH r1).
  - injection H as <-. now apply step_raises in E.
Qed.


(** X1. An entry that is not included (the flag is false or absent), or
    whose source column is unnamed or not a column of the table, is
    skipped whatever its verb: the run is the run of the configuration
    without it. *)
Theorem inactive_entries_are_skipped (df : DataFrame) (ein : cell)
    (pre post : list (string * FieldConfig)) (n : string)
    (f : FieldConfig) :
  get_default (include f) false = false \/
  in_columns (csv_field f) df = false ->
  run df ein (pre ++ (n, f) :: post) = run df ein (pre ++ post).
Proof.
  intros H. unfold compute_ein_aggregates.
  destruct (select df "Tax ID" ein) as [d|e] eqn:Hsel; simpl;
    [|reflexivity].
  destruct (df_empty d); [reflexivity|].
  apply aggregate_fields_drop. intros r0. destruct H as [H|H].
  - now apply step_not_included.
  - apply step_no_column. now rewrite (in_columns_select df d ein _ Hsel).
Qed.

(** X2. On a non-empty selection, and with distinct entry names, the keys
    of the returned record are exactly the names of the entries that are
    included, name an existing column and carry one of the four verbs, in
    configuration order. *)
Theorem record_keys_follow_configuration (df ein_data : DataFrame)
    (ein : cell) (cfg : list (string * FieldConfig)) (rec : dict value) :
  select df "Tax ID" ein = Ok ein_data ->
  rows ein_data <> [] ->
  NoDup (map fst cfg) ->
  run df ein cfg = Ok rec ->
  map fst rec = map fst (filter (fun nf => assigns df (snd nf)) cfg).
Proof.
  intros Hsel Hrows Hnd Hrun.
  unfold compute_ein_aggregates in Hrun. rewrite Hsel in Hrun.
  simpl in Hrun.
  destruct (select_columns df ein_data "Tax ID" ein Hsel) as [Hcols Hne].
  assert (Hempty : df_empty ein_data = false).
  { unfold df_empty. rewrite Hcols.
    destruct (rows ein_data); [contradiction|].
    destruct (columns df); [contradiction|]. reflexivity. }
  rewrite Hempty in Hrun.
  rewrite (steps_keys float_of_string to_datetime ein_data cfg [] rec Hnd Hrun).
  simpl. f_equal. apply filter_ext. intros [n f]. simpl.
  apply (assigns_select df ein_data ein f Hsel).
Qed.

(** X3. The engine raises KeyError exactly when the table has no
    "Tax ID" column: a configured source column that is absent is skipped
    and never raises it. *)
Theorem key_error_iff_no_key_column (df : DataFrame) (ein : cell)
    (cfg : list (string * FieldConfig)) :
  run df ein cfg = Raise KeyError <->
  column_index "Tax ID" (columns df) = None.
Proof.
  unfold compute_ein_aggregates, select, getitem.
  destruct (column_index "Tax ID" (columns df)) as [[j dt]|]; simpl.
  - match goal with
    | |- context [df_empty ?d] => destruct (df_empty d)
    end.
    + split; discriminate.
    + split; [|discriminate]. intros H. apply steps_raises in H.
      destruct H; discriminate.
  - split; reflexivity.
Qed.


(** X5. For an included entry with verb first, the value is the cell of
    the source column in the first row of the table, in table order, whose
    key equals the requested key. *)
Theorem first_is_first_matching_row (df : DataFrame) (ein : cell)
    (n c : string) (f : FieldConfig) (jk j : nat) (dtk dt : dtype)
    (r0 : list cell) :
  column_index "Tax ID" (columns df) = Some (jk, dtk) ->
  column_index c (columns df) = Some (j, dt) ->
  include f = Some true ->
  aggregation f = Some "first" ->
  csv_field f = Some c ->
  find (fun r => cell_eqb (nth jk r NaN) ein) (rows df) = Some r0 ->
  run df ein [(n, f)] = Ok [(n, cell_value (nth j r0 NaN))].
Proof.
  intros Hk Hc Hinc Hagg Hcsv Hfind. unfold compute_ein_aggregates.
  rewrite (select_rows df "Tax ID" ein jk dtk Hk). simpl.
  destruct (find_filter_head _ _ _ Hfind) as [rest Hrest].
  rewrite Hrest. unfold df_empty. simpl.
  assert (Hlen : Nat.eqb (length (columns df)) 0 = false).
  { destruct (columns df); [discriminate Hk|reflexivity]. }
  rewrite Hlen. simpl.
  unfold aggregate_field, in_columns, getitem. simpl.
  rewrite Hinc, Hagg, Hcsv. simpl. rewrite Hc. simpl.
  reflexivity.
Qed.

End EngineTheorems.

(** ** Columns that coerce *)

Lemma Qmaxb_fold (qs : list Q) (q : Q) :
  In (fold_left Qmaxb qs q) (q :: qs) /\
  forall x, In x (q :: qs) -> (x <= fold_left Qmaxb qs q)%Q.
Proof.
  revert q. induction qs as [|a qs IH]; intros q; simpl.
  - split; [now left|]. intros x [<-|[]]. apply Qle_refl.
  - destruct (IH (Qmaxb q a)) as [Hin Hle]. split.
    + destruct Hin as [Hin|Hin]; [|now right; right].
      rewrite <- Hin. unfold Qmaxb. destruct (Qle_bool q a); auto.
    + assert (Hq : (q <= Qmaxb q a)%Q /\ (a <= Qmaxb q a)%Q).
      { unfold Qmaxb. destruct (Qle_bool q a) eqn:E.
        - apply Qle_bool_iff in E. split; [exact E|apply Qle_refl].
        - split; [apply Qle_refl|]. apply Qlt_le_weak, Qnot_le_lt.
          intros Hle'. apply Qle_bool_iff in Hle'. congruence. }
      intros x [<-|[<-|Hx]].
      * apply Qle_trans with (Qmaxb q a); [tauto|]. apply Hle. now left.
      * apply Qle_trans with (Qmaxb q a); [tauto|]. apply Hle. now left.
      * apply Hle. now right.
Qed.



Section CleanColumns.

Variable float_of_string : string -> option Q.
Variable to_datetime : list cell -> list (option Z).

Local Abbreviation step := (aggregate_field float_of_string to_datetime).

Lemma clean_column_accessor (vals : list cell) :
  Forall (clean_cell float_of_string) vals ->
  existsb is_str vals || forallb is_nan vals = true.
Proof.
  induction 1 as [|c l Hc Hl IH]; [reflexivity|].
  destruct Hc as [->|[s [q [-> _]]]]; simpl; [exact IH|reflexivity].
Qed.

Lemma clean_column_coerces (vals : list cell) :
  Forall (clean_cell float_of_string) vals ->
  exists vs,
    coerce_all float_of_string
      (map (fun c => match c with
                     | Str x => Str (strip_currency x)
                     | _ => NaN
                     end) vals) = Some vs /\
    nums vs = parsed_values float_of_string vals.
Proof.
  induction 1 as [|c l Hc Hl [vs [Hvs Hnums]]]; simpl.
  - now exists [].
  - destruct Hc as [->|[s [q [-> Hq]]]]; simpl; rewrite ?Hq, Hvs.
    + exists (NaN :: vs). split; [reflexivity|exact Hnums].
    + exists (Num q :: vs). split; [reflexivity|]. simpl. now rewrite Hnums.
Qed.

Lemma currency_column_becomes_numeric (d : DataFrame) (c : string)
    (j : nat) :
  column_index c (columns d) = Some (j, DObject) ->
  Forall (clean_cell float_of_string)
         (map (fun row => nth j row NaN) (rows d)) ->
  exists vs,
    (column_data <- getitem d c ;;
     stripped <- str_replace_currency column_data ;;
     Ok (astype_float_ignore float_of_string stripped))
    = Ok (mkSeries DFloat vs) /\
    nums vs =
    parsed_values float_of_string (map (fun row => nth j row NaN) (rows d)).
Proof.
  intros Hc Hclean. unfold getitem. rewrite Hc. simpl.
  unfold str_replace_currency, str_accessor_ok. simpl.
  rewrite (clean_column_accessor _ Hclean). simpl.
  destruct (clean_column_coerces _ Hclean) as [vs [Hvs Hnums]].
  exists vs. split; [|exact Hnums].
  unfold astype_float_ignore. simpl. now rewrite Hvs.
Qed.


(** X7. Currency maximum on such a column: the value is one of the numbers
    read from the cells and no number read is greater; when every selected
    cell is missing the value is nan. *)
Theorem currency_max_of_clean_column (d : DataFrame) (r : dict value)
    (n c : string) (f : FieldConfig) (j : nat) :
  column_index c (columns d) = Some (j, DObject) ->
  include f = Some true ->
  csv_field f = Some c ->
  aggregation f = Some "max" ->
  data_clean f = Some "currency" ->
  Forall (clean_cell float_of_string)
         (map (fun row => nth j row NaN) (rows d)) ->
  let parsed :=
    parsed_values float_of_string (map (fun row => nth j row NaN) (rows d)) in
  exists v,
    step d r n f = Ok (dict_set r n v) /\
    match v with
    | VNaN => parsed = []
    | VFloat m => In m parsed /\ forall q, In q parsed -> (q <= m)%Q
    | _ => False
    end.
Proof.
  intros Hc Hinc Hcsv Hagg Hclean Hcells parsed.
  destruct (currency_column_becomes_numeric d c j Hc Hcells)
    as [vs [Hcol Hnums]].
  unfold aggregate_field, in_columns.
  rewrite Hinc, Hcsv, Hagg, Hclean, Hc. simpl.
  destruct (getitem d c) as [col|e]; simpl in *; [|discriminate].
  destruct (str_replace_currency col) as [st|e]; simpl in *; [|discriminate].
  injection Hcol as ->. unfold series_max, float_max. simpl.
  rewrite Hnums. fold parsed.
  destruct parsed as [|q qs]; eexists; (split; [reflexivity|]).
  - reflexivity.
  - apply Qmaxb_fold.
Qed.


End CleanColumns.

(** ** The currency pattern *)

Lemma strip_currency_chars (s : string) :
  list_ascii_of_string (strip_currency s) =
  filter (fun c => negb (is_currency_mark c)) (list_ascii_of_string s).
Proof.
  induction s as [|c s IH]; simpl; [reflexivity|].
  unfold is_currency_mark at 1.
  destruct (Ascii.eqb c "$" || Ascii.eqb c ",")%bool; simpl; now rewrite IH.
Qed.

(** X9. Cleaning removes every "$" and "," and nothing else: no such
    character is left, text without them is unchanged, and cleaning twice
    is cleaning once. *)
Theorem strip_currency_removes_marks (s : string) :
  (forall c, In c (list_ascii_of_string (strip_currency s)) ->
             c <> "$"%char /\ c <> ","%char) /\
  ((forall c, In c (list_ascii_of_string s) ->
              c <> "$"%char /\ c <> ","%char) ->
   strip_currency s = s) /\
  strip_currency (strip_currency s) = strip_currency s.
Proof.
  assert (Hfix : forall t,
             (forall c, In c (list_ascii_of_string t) ->
                        c <> "$"%char /\ c <> ","%char) ->
             strip_currency t = t).
  { induction t as [|c t IH]; simpl; intros H; [reflexivity|].
    destruct (H c (or_introl eq_refl)) as [H1 H2].
    apply Ascii.eqb_neq in H1. apply Ascii.eqb_neq in H2.
    rewrite H1, H2. simpl. f_equal. apply IH. intros c' Hc'. apply H.
    now right. }
  assert (Hnone : forall c, In c (list_ascii_of_string (strip_currency s)) ->
                            c <> "$"%char /\ c <> ","%char).
  { intros c Hc. rewrite strip_currency_chars in Hc.
    apply filter_In in Hc. destruct Hc as [_ Hc].
    unfold is_currency_mark in Hc. apply negb_true_iff in Hc.
    apply orb_false_iff in Hc. destruct Hc as [H1 H2].
    split; now apply Ascii.eqb_neq. }
  split; [exact Hnone|]. split; [apply Hfix|]. now apply Hfix.
Qed.

(** * Further properties of the driver *)

(** ** Keys *)

Lemma cell_eq_refl (c : cell) : c <> NaN -> cell_eq c c.
Proof.
  destruct c; simpl; intros H; [reflexivity|apply Qeq_refl|congruence].
Qed.

Lemma cell_eq_sym (a b : cell) : cell_eq a b -> cell_eq b a.
Proof.
  destruct a, b; simpl; auto. apply Qeq_sym.
Qed.

Lemma existsb_cell_eqb (x : cell) (seen : list cell) :
  existsb (cell_eqb x) seen = true <->
  exists y, In y seen /\ cell_eq x y.
Proof.
  rewrite existsb_exists. split; intros [y [Hin Hy]]; exists y;
    (split; [exact Hin|]); now apply cell_eqb_spec.
Qed.

Lemma unique_from_in (seen l : list cell) (x : cell) :
  In x (unique_from seen l) ->
  In x l /\ existsb (cell_eqb x) seen = false.
Proof.
  revert seen. induction l as [|x0 l IH]; simpl; intros seen H;
    [contradiction|].
  destruct (existsb (cell_eqb x0) seen) eqn:E.
  - destruct (IH seen H). auto.
  - destruct H as [<-|H]; [auto|].
    destruct (IH (x0 :: seen) H) as [Hin Hex]. simpl in Hex.
    apply orb_false_iff in Hex. tauto.
Qed.

Lemma unique_from_nodup (seen l : list cell) :
  NoDupA cell_eq (unique_from seen l).
Proof.
  revert seen. induction l as [|x0 l IH]; simpl; intros seen;
    [constructor|].
  destruct (existsb (cell_eqb x0) seen); [apply IH|].
  constructor; [|apply IH].
  intros Hin. apply InA_alt in Hin. destruct Hin as [y [Hxy Hy]].
  apply unique_from_in in Hy. destruct Hy as [_ Hex]. simpl in Hex.
  apply orb_false_iff in Hex. destruct Hex as [Hyx _].
  apply cell_eq_sym, cell_eqb_spec in Hxy. congruence.
Qed.

Lemma unique_from_covers (seen l : list cell) (x : cell) :
  In x l -> x <> NaN ->
  (exists y, In y seen /\ cell_eq x y) \/
  (exists y, In y (unique_from seen l) /\ cell_eq x y).
Proof.
  revert seen. induction l as [|x0 l IH]; simpl; intros seen Hin Hx;
    [contradiction|].
  destruct (existsb (cell_eqb x0) seen) eqn:E.
  - destruct Hin as [->|Hin].
    + left. now apply existsb_cell_eqb.
    + now apply IH.
  - destruct Hin as [->|Hin].
    + right. exists x. split; [now left|now apply cell_eq_refl].
    + destruct (IH (x0 :: seen) Hin Hx) as [[y [[<-|Hy] Hxy]]|[y [Hy Hxy]]].
      * right. exists x0. split; [now left|exact Hxy].
      * left. now exists y.
      * right. exists y. split; [now right|exact Hxy].
Qed.

Lemma firstn_in {A : Type} (n : nat) (l : list A) (x : A) :
  In x (firstn n l) -> In x l.
Proof.
  revert l. induction n as [|n IH]; intros [|y l]; simpl; try tauto.
  intros [H|H]; auto.
Qed.

Lemma firstn_nodupA (n : nat) (l : list cell) :
  NoDupA cell_eq l -> NoDupA cell_eq (firstn n l).
Proof.
  revert l. induction n as [|n IH]; intros l H; [constructor|].
  destruct H as [|y l Hy Hl]; simpl; [constructor|].
  constructor; [|now apply IH].
  intros Hin. apply Hy. apply InA_alt in Hin. apply InA_alt.
  destruct Hin as [z [Hz Hin]]. exists z. split; [exact Hz|].
  now apply firstn_in in Hin.
Qed.

Lemma apply_limit_in (config : Config) (keys : list cell) (k : cell) :
  In k (apply_limit config keys) -> In k keys.
Proof.
  unfold apply_limit. destruct (limit config >? 0)%Z; [|auto].
  apply firstn_in.
Qed.

(** X10. The keys [main] processes are pairwise different, none is the
    missing value, and each of them selects at least one row of the table:
    the engine is never run on an empty selection. *)
Theorem processed_keys_are_distinct_and_present (config : Config)
    (df : DataFrame) (keys : list cell) :
  tax_ids df = Ok keys ->
  NoDupA cell_eq (apply_limit config keys) /\
  forall k, In k (apply_limit config keys) ->
    k <> NaN /\
    exists sub, select df "Tax ID" k = Ok sub /\ rows sub <> [].
Proof.
  unfold tax_ids, getitem.
  destruct (column_index "Tax ID" (columns df)) as [[j dt]|] eqn:Hc;
    simpl; [|discriminate].
  intros H. injection H as <-. split.
  - unfold apply_limit. destruct (limit config >? 0)%Z.
    + apply firstn_nodupA. apply unique_from_nodup.
    + apply unique_from_nodup.
  - intros k Hk. apply apply_limit_in in Hk.
    apply unique_from_in in Hk. destruct Hk as [Hk _].
    unfold dropna in Hk. apply filter_In in Hk. destruct Hk as [Hin Hnan].
    assert (Hne : k <> NaN).
    { intros ->. discriminate Hnan. }
    split; [exact Hne|].
    rewrite (select_rows df "Tax ID" k j dt Hc). eexists.
    split; [reflexivity|]. simpl.
    apply in_map_iff in Hin. destruct Hin as [row [Hrow Hin]].
    intros Hnil.
    assert (Hfil : In row (filter (fun r => cell_eqb (nth j r NaN) k)
                             (rows df))).
    { apply filter_In. split; [exact Hin|]. rewrite Hrow.
      apply cell_eqb_spec. now apply cell_eq_refl. }
    rewrite Hnil in Hfil. contradiction.
Qed.

(** X11. Every row of the table whose "Tax ID" cell is not missing is in
    the selection of one of the keys found by [tax_ids]: without a limit
    no such row is left out of the run. *)
Theorem every_keyed_row_is_selected (df : DataFrame) (keys : list cell)
    (j : nat) (dt : dtype) (row : list cell) :
  column_index "Tax ID" (columns df) = Some (j, dt) ->
  tax_ids df = Ok keys ->
  In row (rows df) ->
  nth j row NaN <> NaN ->
  exists k sub,
    In k keys /\ select df "Tax ID" k = Ok sub /\ In row (rows sub).
Proof.
  intros Hc Hk Hrow Hne. unfold tax_ids, getitem in Hk.
  rewrite Hc in Hk. simpl in Hk. injection Hk as <-.
  destruct (unique_from_covers []
              (dropna (map (fun r => nth j r NaN) (rows df)))
              (nth j row NaN)) as [[y [[] _]]|[y [Hy Hxy]]].
  - unfold dropna. apply filter_In. split.
    + apply in_map_iff. now exists row.
    + destruct (nth j row NaN); simpl; congruence.
  - exact Hne.
  - exists y. eexists. split; [exact Hy|].
    split; [apply (select_rows df "Tax ID" y j dt Hc)|]. simpl.
    apply filter_In. split; [exact Hrow|]. now apply cell_eqb_spec.
Qed.

(** ** File names *)

Lemma append_inj_l (p a b : string) : (p ++ a = p ++ b)%string -> a = b.
Proof.
  induction p as [|c p IH]; simpl; intros H; [exact H|].
  injection H as H. now apply IH.
Qed.

Lemma list_ascii_of_string_app (a b : string) :
  list_ascii_of_string (a ++ b) =
  list_ascii_of_string a ++ list_ascii_of_string b.
Proof.
  induction a as [|c a IH]; simpl; [reflexivity|]. now rewrite IH.
Qed.

Lemma append_inj_r (a b s : string) : (a ++ s = b ++ s)%string -> a = b.
Proof.
  intros H. apply (f_equal list_ascii_of_string) in H.
  rewrite !list_ascii_of_string_app in H. apply app_inv_tail in H.
  apply (f_equal string_of_list_ascii) in H.
  now rewrite !string_of_list_ascii_of_string in H.
Qed.

Lemma str_of_nat_inj (n m : nat) : str_of_nat n = str_of_nat m -> n = m.
Proof.
  unfold str_of_nat. intros H.
  apply (f_equal NilEmpty.uint_of_string) in H.
  rewrite !NilEmpty.usu in H. injection H as H.
  now apply Unsigned.to_uint_inj.
Qed.

Lemma batch_filename_inj (config : Config) (a b : Z) :
  (0 <= a)%Z -> (0 <= b)%Z ->
  batch_filename config a = batch_filename config b -> a = b.
Proof.
  unfold batch_filename. intros Ha Hb H.
  apply append_inj_l in H. apply append_inj_l in H.
  apply append_inj_r in H. apply str_of_nat_inj in H. lia.
Qed.

Lemma range_nonneg (n x : Z) : In x (range n) -> (0 <= x)%Z.
Proof.
  unfold range. intros H. apply in_map_iff in H.
  destruct H as [i [<- _]]. lia.
Qed.

Lemma range_nodup (n : Z) : NoDup (range n).
Proof.
  unfold range. apply NoDup_map_NoDup_ForallPairs; [|apply seq_NoDup].
  intros a b _ _ H. lia.
Qed.

Lemma firstn_nodup {A : Type} (n : nat) (l : list A) :
  NoDup l -> NoDup (firstn n l).
Proof.
  revert l. induction n as [|n IH]; intros l H; [constructor|].
  destruct H as [|y l Hy Hl]; simpl; [constructor|].
  constructor; [|now apply IH]. intros Hin. apply Hy.
  now apply firstn_in in Hin.
Qed.

(** ** Batches *)

Lemma batches_concat {A : Type} (l : list A) (b : Z) :
  (0 < b)%Z -> concat (batches l b) = l.
Proof.
  intros Hb. rewrite (batches_chunks l b Hb), concat_chunks.
  apply firstn_all2.
  pose proof (batch_count_bounds (Z.of_nat (length l)) b ltac:(lia) Hb) as H.
  simpl in H. nia.
Qed.

Lemma batches_batch_of (config : Config) (unique_eins : list cell) :
  (0 < batch config)%Z ->
  batches unique_eins (batch config) =
  map (batch_of config unique_eins)
      (range (total_batches config unique_eins)).
Proof.
  intros Hb. unfold batches, batch_of, total_batches.
  destruct (batch config >? 0)%Z eqn:E; [reflexivity|lia].
Qed.

Section MainFacts.

Variable float_of_string : string -> option Q.
Variable to_datetime : list cell -> list (option Z).
Variable evaluate_charity : cell -> res pyobj.

Local Abbreviation run :=
  (compute_ein_aggregates float_of_string to_datetime).
Local Abbreviation one_key :=
  (process_ein float_of_string to_datetime evaluate_charity).
Local Abbreviation all_rows :=
  (process_rows float_of_string to_datetime evaluate_charity).
Local Abbreviation one_batch :=
  (process_batch float_of_string to_datetime evaluate_charity).
Local Abbreviation loop :=
  (batch_loop float_of_string to_datetime evaluate_charity).
Local Abbreviation whole :=
  (main float_of_string to_datetime evaluate_charity).

Lemma process_rows_app (a b : list cell) (fs : list string)
    (df : DataFrame) (cfg : list (string * FieldConfig)) :
  all_rows (a ++ b) fs df cfg =
  (ra <- all_rows a fs df cfg ;;
   rb <- all_rows b fs df cfg ;;
   Ok (ra ++ rb)).
Proof.
  induction a as [|k a IH]; simpl.
  - now destruct (all_rows b fs df cfg).
  - destruct (one_key k fs df cfg) as [rd|e]; simpl; [|reflexivity].
    rewrite IH.
    destruct (all_rows a fs df cfg) as [ra|e]; simpl; [|reflexivity].
    now destruct (all_rows b fs df cfg).
Qed.

Lemma process_ein_failure (ein : cell) (fs : list string) (df : DataFrame)
    (cfg : list (string * FieldConfig)) (e : exn) :
  evaluate_charity ein = Raise e \/
  (exists result, evaluate_charity ein = Ok result /\
                  run df ein cfg = Raise e) ->
  one_key ein fs df cfg = Raise e.
Proof.
  unfold process_ein. intros [H|[result [H1 H2]]].
  - now rewrite H.
  - rewrite H1. simpl. rewrite extract_fields_eq. simpl. now rewrite H2.
Qed.

(** X12. Nothing is caught in [process_batch]: when the enrichment call
    or the engine raises for a key and all keys before it went through,
    the batch ends in that exception and no frame is returned, whatever
    keys follow. *)
Theorem first_failing_key_aborts_batch (pre post : list cell) (ein : cell)
    (fs : list string) (df : DataFrame) (cfg : list (string * FieldConfig))
    (e : exn) :
  (forall k, In k pre ->
     exists result aggregates,
       evaluate_charity k = Ok result /\ run df k cfg = Ok aggregates) ->
  evaluate_charity ein = Raise e \/
  (exists result, evaluate_charity ein = Ok result /\
                  run df ein cfg = Raise e) ->
  one_batch (pre ++ ein :: post) fs df cfg = Raise e.
Proof.
  intros Hpre Hfail. unfold process_batch. rewrite process_rows_app.
  assert (Hok : exists ra, all_rows pre fs df cfg = Ok ra).
  { induction pre as [|k pre' IH]; simpl; [now eexists|].
    destruct (Hpre k (or_introl eq_refl)) as [result [aggs [Hev Hagg]]].
    destruct (process_ein_row float_of_string to_datetime evaluate_charity
                k fs df cfg result aggs Hev Hagg) as [rd [-> _]].
    simpl. destruct IH as [ra ->].
    { intros k' Hk'. apply Hpre. now right. }
    simpl. now eexists. }
  destruct Hok as [ra ->]. simpl.
  now rewrite (process_ein_failure ein fs df cfg e Hfail).
Qed.

(** What the loop leaves behind: the files of the first [k] batches, and
    either all batches were written or batch [k] raised. *)
Lemma batch_loop_spec (config : Config) (df : DataFrame)
    (unique_eins : list cell) (nums : list Z)
    (files : list (string * OutFrame)) (err : option exn) :
  loop config df unique_eins nums = (files, err) ->
  Forall2 (fun num file =>
             fst file = batch_filename config num /\
             one_batch (batch_of config unique_eins num)
               (included_fields config) df (input_aggregates config)
             = Ok (snd file))
          (firstn (length files) nums) files /\
  match err with
  | None => length files = length nums
  | Some e =>
      exists num,
        nth_error nums (length files) = Some num /\
        one_batch (batch_of config unique_eins num)
          (included_fields config) df (input_aggregates config) = Raise e
  end.
Proof.
  revert files err. induction nums as [|num nums IH]; simpl;
    intros files err H.
  - injection H as <- <-. split; [constructor|reflexivity].
  - fold (batch_of config unique_eins num) in H.
    destruct (one_batch (batch_of config unique_eins num)
                (included_fields config) df (input_aggregates config))
      as [frame|e] eqn:E.
    + destruct (loop config df unique_eins nums) as [files' err'] eqn:L.
      injection H as <- <-. destruct (IH files' err' eq_refl) as [H1 H2].
      simpl. split; [constructor; auto|].
      destruct err'; [exact H2|now f_equal].
    + injection H as <- <-. simpl. split; [constructor|].
      exists num. auto.
Qed.

Lemma batch_loop_names (config : Config) (df : DataFrame)
    (unique_eins : list cell) (nums : list Z)
    (files : list (string * OutFrame)) (err : option exn) :
  loop config df unique_eins nums = (files, err) ->
  map fst files = map (batch_filename config) (firstn (length files) nums).
Proof.
  intros H. apply batch_loop_spec in H. destruct H as [H _].
  induction H as [|num file ns fs [Hname _] _ IH]; simpl; [reflexivity|].
  now rewrite Hname, IH.
Qed.

Lemma batch_loop_ok (config : Config) (df : DataFrame)
    (unique_eins : list cell) (nums : list Z)
    (rs : list (dict out_value)) :
  all_rows (concat (map (batch_of config unique_eins) nums))
    (included_fields config) df (input_aggregates config) = Ok rs ->
  exists files,
    loop config df unique_eins nums = (files, None) /\
    length files = length nums /\
    Forall (fun file => out_columns (snd file) = included_fields config)
           files /\
    written_rows files =
    out_rows (frame_of_dicts rs (included_fields config)).
Proof.
  revert rs. induction nums as [|num nums IH]; simpl; intros rs H.
  - injection H as <-. exists []. repeat split. constructor.
  - fold (batch_of config unique_eins num).
    rewrite process_rows_app in H. unfold process_batch.
    destruct (all_rows (batch_of config unique_eins num)
                (included_fields config) df (input_aggregates config))
      as [ra|e]; simpl in *; [|discriminate].
    destruct (all_rows (concat (map (batch_of config unique_eins) nums))
                (included_fields config) df (input_aggregates config))
      as [rb|e]; simpl in *; [|discriminate].
    injection H as <-.
    destruct (IH rb eq_refl) as [files [-> [Hlen [Hcols Hrows]]]].
    eexists. split; [reflexivity|]. simpl. split; [now f_equal|].
    split; [constructor; [reflexivity|exact Hcols]|].
    unfold written_rows in *. simpl. rewrite Hrows. simpl.
    now rewrite map_app.
Qed.

(** X13. Batching does not change what is written: when the unbatched
    call over the keys returns a frame, [main] with a positive batch size
    ends without an exception, writes one file per batch, each with the
    included fields as its columns, and the rows of the files read in
    order are the rows of that frame. *)
Theorem batched_files_hold_the_unbatched_rows (config : Config)
    (df : DataFrame) (keys : list cell) (out : OutFrame) :
  (0 < batch config)%Z ->
  tax_ids df = Ok keys ->
  one_batch (apply_limit config keys) (included_fields config) df
    (input_aggregates config) = Ok out ->
  exists files,
    whole config df = (files, None) /\
    Z.of_nat (length files)
    = total_batches config (apply_limit config keys) /\
    Forall (fun file => out_columns (snd file) = included_fields config)
           files /\
    written_rows files = out_rows out.
Proof.
  intros Hb Hkeys Hout. unfold main. rewrite Hkeys.
  destruct (batch config >? 0)%Z eqn:E; [|lia].
  fold (total_batches config (apply_limit config keys)).
  unfold process_batch in Hout.
  destruct (all_rows (apply_limit config keys) (included_fields config) df
              (input_aggregates config)) as [rs|e] eqn:Hrs;
    simpl in Hout; [|discriminate].
  injection Hout as <-.
  destruct (batch_loop_ok config df (apply_limit config keys)
              (range (total_batches config (apply_limit config keys))) rs)
    as [files [Hloop [Hlen [Hcols Hrows]]]].
  { rewrite <- batches_batch_of by exact Hb.
    rewrite batches_concat by exact Hb. exact Hrs. }
  exists files. split; [exact Hloop|]. split; [|auto].
  rewrite Hlen. unfold range. rewrite length_map, length_seq.
  apply Z2Nat.id. unfold total_batches.
  apply Z.div_pos; lia.
Qed.

(** X14. The files [main] writes have pairwise different names, so no
    batch overwrites the file of another. *)
Theorem written_files_have_distinct_names (config : Config)
    (df : DataFrame) (files : list (string * OutFrame))
    (err : option exn) :
  whole config df = (files, err) -> NoDup (map fst files).
Proof.
  unfold main. destruct (tax_ids df) as [keys|e].
  - destruct (batch config >? 0)%Z.
    + intros H. rewrite (batch_loop_names _ _ _ _ _ _ H).
      apply NoDup_map_NoDup_ForallPairs.
      * intros a b Ha Hb. apply batch_filename_inj.
        -- apply firstn_in in Ha. now apply range_nonneg in Ha.
        -- apply firstn_in in Hb. now apply range_nonneg in Hb.
      * apply firstn_nodup, range_nodup.
    + destruct (one_batch _ _ _ _); intros H; injection H as <- <-; simpl.
      * constructor; [intros []|constructor].
      * constructor.
  - intros H. injection H as <- <-. constructor.
Qed.

(** X15. How [main] fails.  Without a "Tax ID" column it ends in KeyError
    before anything is written.  With a positive batch size, when it ends
    in an exception the files written are exactly those of the batches
    before the one that raised, each holding the frame of its batch: they
    are not removed. *)
Theorem failed_run_keeps_earlier_batches (config : Config)
    (df : DataFrame) :
  (column_index "Tax ID" (columns df) = None ->
   whole config df = ([], Some KeyError)) /\
  (forall keys files e,
     (0 < batch config)%Z ->
     tax_ids df = Ok keys ->
     whole config df = (files, Some e) ->
     let unique_eins := apply_limit config keys in
     let nums := range (total_batches config unique_eins) in
     Forall2 (fun num file =>
                fst file = batch_filename config num /\
                one_batch (batch_of config unique_eins num)
                  (included_fields config) df (input_aggregates config)
                = Ok (snd file))
             (firstn (length files) nums) files /\
     exists num,
       nth_error nums (length files) = Some num /\
       one_batch (batch_of config unique_eins num)
         (included_fields config) df (input_aggregates config) = Raise e).
Proof.
  split.
  - intros Hc. unfold main, tax_ids, getitem. now rewrite Hc.
  - intros keys files e Hb Hkeys H unique_eins nums.
    unfold main in H. rewrite Hkeys in H.
    destruct (batch config >? 0)%Z eqn:E; [|lia].
    apply (batch_loop_spec config df unique_eins nums files (Some e) H).
Qed.

End MainFacts.

(** * Worked cases for the further properties *)

Lemma inactive_entries_witness :
  aggregate (amounts DObject [Str "$5"; Str "$7"]) key1
    [("hidden", mkFieldConfig None (Some "Amount") (Some "count") None);
     ("n", count_on (Some "Amount"))]
  = aggregate (amounts DObject [Str "$5"; Str "$7"]) key1
      [("n", count_on (Some "Amount"))].
Proof.
  exact (inactive_entries_are_skipped
           Decimal.float_of_string IsoDate.to_datetime
           (amounts DObject [Str "$5"; Str "$7"]) key1
           [] [("n", count_on (Some "Amount"))] "hidden"
           (mkFieldConfig None (Some "Amount") (Some "count") None)
           (or_introl eq_refl)).
Defined.

Lemma record_keys_witness :
  map fst [("total", VFloat 12); ("n", VInt 2)] = ["total"; "n"].
Proof.
  refine (record_keys_follow_configuration
            Decimal.float_of_string IsoDate.to_datetime
            (amounts DObject [Str "$5"; Str "$7"])
            (amounts DObject [Str "$5"; Str "$7"]) key1
            [("total", spec_on "sum" "currency");
             ("avg", spec_on "average" "none");
             ("n", count_on (Some "Amount"))]
            [("total", VFloat 12); ("n", VInt 2)]
            eq_refl _ _ eq_refl).
  - discriminate.
  - repeat constructor; simpl; intuition discriminate.
Defined.

Lemma key_error_witness :
  aggregate (mkDataFrame [("Amount", DObject)] [[Str "$5"]]) key1
    [("n", count_on (Some "Amount"))] = Raise KeyError.
Proof.
  exact (proj2 (key_error_iff_no_key_column
           Decimal.float_of_string IsoDate.to_datetime
           (mkDataFrame [("Amount", DObject)] [[Str "$5"]]) key1
           [("n", count_on (Some "Amount"))]) eq_refl).
Defined.


Lemma first_witness :
  aggregate donations (Str "22-2222222") [("head", spec_on "first" "none")]
  = Ok [("head", VStr "$50")].
Proof.
  exact (first_is_first_matching_row
           Decimal.float_of_string IsoDate.to_datetime
           donations (Str "22-2222222") "head" "Amount"
           (spec_on "first" "none") 0 1 DObject DObject
           [Str "22-2222222"; Str "$50"]
           eq_refl eq_refl eq_refl eq_refl eq_refl eq_refl).
Defined.

Lemma clean_amounts :
  Forall (clean_cell Decimal.float_of_string)
    (map (fun row => nth 1 row NaN)
         (rows (amounts DObject [Str "$1,000.00"; NaN; Str "$250.50"]))).
Proof.
  simpl. apply Forall_cons; [|apply Forall_cons; [|apply Forall_cons]].
  - right. exists "$1,000.00", 1000%Q. split; reflexivity.
  - now left.
  - right. exists "$250.50", (501 # 2)%Q. split; reflexivity.
  - apply Forall_nil.
Defined.


Lemma currency_max_witness :
  exists v,
    aggregate_field Decimal.float_of_string IsoDate.to_datetime
      (amounts DObject [Str "$1,000.00"; NaN; Str "$250.50"]) []
      "top" (spec_on "max" "currency")
    = Ok [("top", v)].
Proof.
  destruct (currency_max_of_clean_column
              Decimal.float_of_string IsoDate.to_datetime
              (amounts DObject [Str "$1,000.00"; NaN; Str "$250.50"]) []
              "top" "Amount" (spec_on "max" "currency") 1
              eq_refl eq_refl eq_refl eq_refl eq_refl clean_amounts)
    as [v [Hv _]].
  exists v. exact Hv.
Defined.


Lemma strip_currency_witness :
  strip_currency (strip_currency "$1,000.00") = strip_currency "$1,000.00" /\
  strip_currency "1000.00" = "1000.00".
Proof.
  split.
  - exact (proj2 (proj2 (strip_currency_removes_marks "$1,000.00"))).
  - apply (proj1 (proj2 (strip_currency_removes_marks "1000.00"))).
    simpl. intros c H. split; intros ->; intuition discriminate.
Defined.

Lemma processed_keys_witness :
  NoDupA cell_eq [Str "11-1111111"; Str "22-2222222"; Str "33-3333333"].
Proof.
  exact (proj1 (processed_keys_are_distinct_and_present
                  counting_config donations
                  [Str "11-1111111"; Str "22-2222222"; Str "33-3333333"]
                  eq_refl)).
Defined.

Lemma keyed_row_witness :
  exists k sub,
    In k [Str "11-1111111"; Str "22-2222222"; Str "33-3333333"] /\
    select donations "Tax ID" k = Ok sub /\
    In [Str "33-3333333"; NaN] (rows sub).
Proof.
  refine (every_keyed_row_is_selected donations
            [Str "11-1111111"; Str "22-2222222"; Str "33-3333333"]
            0 DObject [Str "33-3333333"; NaN] eq_refl eq_refl _ _).
  - simpl. tauto.
  - discriminate.
Defined.

Lemma failing_key_witness :
  process_batch Decimal.float_of_string IsoDate.to_datetime evaluate_fixed
    [Str "11-1111111"; Str "33-3333333"; Str "22-2222222"] ["ein"; "n"]
    donations [("n", spec_on "sum" "currency")]
  = Raise TypeError.
Proof.
  refine (first_failing_key_aborts_batch
            Decimal.float_of_string IsoDate.to_datetime evaluate_fixed
            [Str "11-1111111"] [Str "22-2222222"] (Str "33-3333333")
            ["ein"; "n"] donations [("n", spec_on "sum" "currency")]
            TypeError _ _).
  - intros k [<-|[]]. eexists. eexists. split; reflexivity.
  - right. eexists. split; reflexivity.
Defined.

Lemma batched_files_witness :
  exists files,
    run_main counting_config donations = (files, None) /\
    Z.of_nat (length files) = 2%Z.
Proof.
  destruct (batched_files_hold_the_unbatched_rows
              Decimal.float_of_string IsoDate.to_datetime evaluate_fixed
              counting_config donations
              [Str "11-1111111"; Str "22-2222222"; Str "33-3333333"]
              (mkOutFrame ["ein"; "n"]
                 [[Some (Enriched (Py (VStr "11-1111111") []));
                   Some (Aggregated (VInt 2))];
                  [Some (Enriched (Py (VStr "11-1111111") []));
                   Some (Aggregated (VInt 1))];
                  [Some (Enriched (Py (VStr "11-1111111") []));
                   Some (Aggregated (VInt 2))]])
              eq_refl eq_refl eq_refl)
    as [files [H1 [H2 _]]].
  exists files. split; [exact H1|exact H2].
Defined.

Lemma distinct_names_witness :
  NoDup ["out_batch_1.csv"; "out_batch_2.csv"].
Proof.
  exact (written_files_have_distinct_names
           Decimal.float_of_string IsoDate.to_datetime evaluate_fixed
           counting_config donations
           (fst (run_main counting_config donations))
           (snd (run_main counting_config donations))
           eq_refl).
Defined.

Lemma failed_run_witness :
  exists num,
    nth_error (range 2) 1 = Some num /\
    process_batch Decimal.float_of_string IsoDate.to_datetime evaluate_fixed
      (batch_of summing_config
         [Str "11-1111111"; Str "22-2222222"; Str "33-3333333"] num)
      ["ein"; "n"] donations [("n", spec_on "sum" "currency")]
    = Raise TypeError.
Proof.
  exact (proj2 (proj2 (failed_run_keeps_earlier_batches
           Decimal.float_of_string IsoDate.to_datetime evaluate_fixed
           summing_config donations)
           [Str "11-1111111"; Str "22-2222222"; Str "33-3333333"]
           (fst (run_main summing_config donations)) TypeError
           eq_refl eq_refl eq_refl)).
Defined.

(** ** Rows of other keys *)

Section OtherKeys.

Variable float_of_string : string -> option Q.
Variable to_datetime : list cell -> list (option Z).

Local Abbreviation run :=
  (compute_ein_aggregates float_of_string to_datetime).

(** X16. The record of a key depends only on the rows that carry the key:
    a row whose "Tax ID" cell differs from the key (or is missing) can be
    removed from the table, anywhere, without changing the key's record or
    the exception raised for it. *)
Theorem rows_of_other_keys_do_not_matter (cols : list (string * dtype))
    (before after : list (list cell)) (row : list cell) (ein : cell)
    (cfg : list (string * FieldConfig)) (j : nat) (dt : dtype) :
  column_index "Tax ID" cols = Some (j, dt) ->
  cell_eqb (nth j row NaN) ein = false ->
  run (mkDataFrame cols (before ++ row :: after)) ein cfg =
  run (mkDataFrame cols (before ++ after)) ein cfg.
Proof.
  intros Hc Hrow. unfold compute_ein_aggregates.
  rewrite (select_rows (mkDataFrame cols (before ++ row :: after))
             "Tax ID" ein j dt Hc).
  rewrite (select_rows (mkDataFrame cols (before ++ after))
             "Tax ID" ein j dt Hc).
  simpl. rewrite !filter_app. simpl. now rewrite Hrow.
Qed.

End OtherKeys.

Lemma other_keys_witness :
  aggregate
    (mkDataFrame [("Tax ID", DObject); ("Amount", DObject)]
       [[Str "11-1111111"; Str "$5"]; [Str "22-2222222"; Str "bad"];
        [Str "11-1111111"; Str "$7"]])
    key1 [("total", spec_on "sum" "currency")]
  = aggregate
      (mkDataFrame [("Tax ID", DObject); ("Amount", DObject)]
         [[Str "11-1111111"; Str "$5"]; [Str "11-1111111"; Str "$7"]])
      key1 [("total", spec_on "sum" "currency")].
Proof.
  exact (rows_of_other_keys_do_not_matter
           Decimal.float_of_string IsoDate.to_datetime
           [("Tax ID", DObject); ("Amount", DObject)]
           [[Str "11-1111111"; Str "$5"]] [[Str "11-1111111"; Str "$7"]]
           [Str "22-2222222"; Str "bad"] key1
           [("total", spec_on "sum" "currency")] 0 DObject
           eq_refl eq_refl).
Defined.


(** ** The batches of [main] *)

Lemma Forall2_map_left {A B C : Type} (g : A -> B) (P : B -> C -> Prop)
    (l : list A) (l' : list C) :
  Forall2 (fun a c => P (g a) c) l l' -> Forall2 P (map g l) l'.
Proof.
  induction 1; simpl; constructor; auto.
Qed.

Section MainBatches.

Variable float_of_string : string -> option Q.
Variable to_datetime : list cell -> list (option Z).
Variable evaluate_charity : cell -> res pyobj.

Local Abbreviation one_batch :=
  (process_batch float_of_string to_datetime evaluate_charity).
Local Abbreviation whole :=
  (main float_of_string to_datetime evaluate_charity).

(** C8. The key lists [main] hands to [process_batch].  With a positive
    batch size they are consecutive chunks of the key sequence: their
    concatenation is the sequence itself, none is empty or longer than the
    batch size, all but the last have exactly that size; [main] calls
    [process_batch] on them in order, each file written holds the frame of
    its chunk, and the run goes over all of them unless [process_batch]
    raises on one.  With a batch size of zero or less [main] makes one call
    of [process_batch], on the whole key sequence. *)
Theorem main_batches_partition_keys (config : Config) (df : DataFrame)
    (keys : list cell) :
  tax_ids df = Ok keys ->
  let unique_eins := apply_limit config keys in
  let chunks :=
    map (batch_of config unique_eins)
        (range (total_batches config unique_eins)) in
  ((0 < batch config)%Z ->
   concat chunks = unique_eins /\
   Forall (fun c => 0 < length c <= Z.to_nat (batch config)) chunks /\
   (forall i, S i < length chunks ->
              length (nth i chunks []) = Z.to_nat (batch config)) /\
   forall files err,
     whole config df = (files, err) ->
     Forall2 (fun chunk file =>
                one_batch chunk (included_fields config) df
                  (input_aggregates config) = Ok (snd file))
             (firstn (length files) chunks) files /\
     match err with
     | None => length files = length chunks
     | Some e =>
         exists chunk,
           nth_error chunks (length files) = Some chunk /\
           one_batch chunk (included_fields config) df
             (input_aggregates config) = Raise e
     end) /\
  ((batch config <= 0)%Z ->
   whole config df =
   match one_batch unique_eins (included_fields config) df
           (input_aggregates config) with
   | Ok output_df => ([((output config ++ ".csv")%string, output_df)], None)
   | Raise e => ([], Some e)
   end).
Proof.
  intros Hkeys unique_eins chunks. split.
  - intros Hb.
    assert (Hchunks : chunks = batches unique_eins (batch config)).
    { symmetry. apply (batches_batch_of config unique_eins Hb). }
    destruct (batches_partition_keys unique_eins (batch config))
      as [Hcat [Hsizes _]].
    destruct (Hsizes Hb) as [Hall Hfull].
    rewrite <- Hchunks in Hcat, Hall, Hfull.
    split; [exact Hcat|]. split; [exact Hall|]. split; [exact Hfull|].
    intros files err Hrun. unfold main in Hrun. rewrite Hkeys in Hrun.
    destruct (batch config >? 0)%Z eqn:E; [|lia].
    fold unique_eins in Hrun.
    fold (total_batches config unique_eins) in Hrun.
    destruct (batch_loop_spec float_of_string to_datetime evaluate_charity
                config df unique_eins
                (range (total_batches config unique_eins)) files err Hrun)
      as [Hfiles Herr].
    split.
    + unfold chunks. rewrite firstn_map. apply Forall2_map_left.
      eapply Forall2_impl; [|exact Hfiles]. intros num file [_ H]. exact H.
    + destruct err as [e|].
      * destruct Herr as [num [Hnth Hraise]].
        exists (batch_of config unique_eins num). split; [|exact Hraise].
        unfold chunks. rewrite nth_error_map, Hnth. reflexivity.
      * unfold chunks. now rewrite length_map.
  - intros Hb. unfold main. rewrite Hkeys.
    destruct (batch config >? 0)%Z eqn:E; [lia|].
    fold unique_eins.
    destruct (one_batch unique_eins (included_fields config) df
                (input_aggregates config)); reflexivity.
Qed.

End MainBatches.

Lemma main_batches_witness :
  concat
    (map (batch_of counting_config
            [Str "11-1111111"; Str "22-2222222"; Str "33-3333333"])
         (range 2))
  = [Str "11-1111111"; Str "22-2222222"; Str "33-3333333"] /\
  exists frame,
    run_main unbatched_config donations = ([("out.csv", frame)], None).
Proof.
  split.
  - exact (proj1 (proj1 (main_batches_partition_keys
             Decimal.float_of_string IsoDate.to_datetime evaluate_fixed
             counting_config donations
             [Str "11-1111111"; Str "22-2222222"; Str "33-3333333"]
             eq_refl) eq_refl)).
  - eexists.
    refine (eq_trans (proj2 (main_batches_partition_keys
              Decimal.float_of_string IsoDate.to_datetime evaluate_fixed
              unbatched_config donations
              [Str "11-1111111"; Str "22-2222222"; Str "33-3333333"]
              eq_refl) _) _).
    + discriminate.
    + reflexivity.
Defined.
